(** * Offline/online synchronisation engine of the expense tracker

    A shallow embedding of [src/lib/utils.ts] (the offline store and the
    sync queue), of the [TransactionProvider] (transaction store) and of the
    [DataProvider] (category / payment-method store).

    Sources: the utilities and the transaction store are the two documents
    of [src/unnamed/part_000] (lines 1-35 and 36-314); the category /
    payment-method store is the last document of [src/supabase-schema.sql]
    (lines 576-982).

    The asynchronous TypeScript functions are written as programs of a small
    effect monad [Prog]; every [await] of the source is one operation of the
    program.  [run] executes one program to completion against a remote
    store given as a parameter; [resume] lets the awaited operation of a
    suspended program complete and takes the program to its next
    suspension, so that several pending calls can be interleaved. *)

From Stdlib Require Import ZArith NArith String Ascii List Bool Lia.
From stdpp Require Import base option list gmap strings pretty.

Open Scope string_scope.
Open Scope list_scope.

(** ** JavaScript values and objects *)

(** The primitive values carried by entities.  Numbers are kept as integers:
    no operation of the engine computes with them. *)
Inductive val :=
| VUndef
| VNull
| VStr (s : string)
| VNum (n : Z).

#[global] Instance val_eq_dec : EqDecision val.
Proof. solve_decision. Defined.

(** An entity (transaction, category, payment method) is a plain object. *)
Abbreviation obj := (gmap string val).

(** [o.k]: a missing property reads as [undefined]. *)
Definition get (k : string) (o : obj) : val := default VUndef (o !! k).

(** [a === b] on primitives. *)
Definition strict_eq (a b : val) : bool := bool_decide (a = b).

(** [{ ...t, ...updates }]: the later spread wins. *)
Definition spread (t updates : obj) : obj := updates ∪ t.

(** [const { id, ...rest } = o]. *)
Definition without_id (o : obj) : obj := delete "id" o.

(** A thrown or returned error value.  [instance_of_Error] records whether
    [e instanceof Error] holds, which selects the message shown. *)
Record exn := { instance_of_Error : bool; message : string }.

(** [error instanceof Error ? error.message : fallback] *)
Definition error_message (e : exn) (fallback : string) : string :=
  if instance_of_Error e then message e else fallback.

(** ** Queue entries

    The queue holds untyped action objects; the fields that some action
    carries are collected here, absent ones are [None] / [VUndef]. *)
Record Action := {
  a_entity : option string;
  a_type : string;
  a_id : val;
  a_data : option obj;
  a_field : option string;
  a_oldValue : option string;
  a_newValue : option string
}.

(** [{ type: 'add', data }] *)
Definition add_action (data : obj) : Action :=
  {| a_entity := None; a_type := "add"; a_id := VUndef; a_data := Some data;
     a_field := None; a_oldValue := None; a_newValue := None |}.

(** [{ type: 'delete', id }] *)
Definition delete_action (id : val) : Action :=
  {| a_entity := None; a_type := "delete"; a_id := id; a_data := None;
     a_field := None; a_oldValue := None; a_newValue := None |}.

(** [{ type: 'update', id, data: updates }] *)
Definition update_action (id : val) (updates : obj) : Action :=
  {| a_entity := None; a_type := "update"; a_id := id; a_data := Some updates;
     a_field := None; a_oldValue := None; a_newValue := None |}.

(** [{ type: 'bulkRename', field, oldValue, newValue }] *)
Definition bulkRename_action (field oldValue newValue : string) : Action :=
  {| a_entity := None; a_type := "bulkRename"; a_id := VUndef; a_data := None;
     a_field := Some field; a_oldValue := Some oldValue;
     a_newValue := Some newValue |}.

(** [{ entity, type: 'add', data }] *)
Definition entity_add_action (entity : string) (data : obj) : Action :=
  {| a_entity := Some entity; a_type := "add"; a_id := VUndef;
     a_data := Some data;
     a_field := None; a_oldValue := None; a_newValue := None |}.

(** [{ entity, type: 'delete', id }] *)
Definition entity_delete_action (entity : string) (id : val) : Action :=
  {| a_entity := Some entity; a_type := "delete"; a_id := id; a_data := None;
     a_field := None; a_oldValue := None; a_newValue := None |}.

(** ** The remote store interface

    The calls the engine makes on the Supabase client.  The index is the
    type of [data] in the resolved [{ data, error }]. *)
Inductive rcall : Type → Type :=
| Insert (table : string) (row : obj) : rcall obj
    (* from(table).insert([row]).select().single() *)
| SelectOrder (table column : string) (ascending : bool) : rcall (list obj)
    (* from(table).select('*').order(column, { ascending }) *)
| Update (table : string) (payload : option obj)
         (filters : list (string * val)) : rcall unit
    (* from(table).update(payload).eq(c1, v1)... *)
| UpdateSingle (table : string) (payload : obj)
               (filters : list (string * val)) : rcall obj
    (* from(table).update(payload).eq(c, v).select().single() *)
| Delete (table : string) (filters : list (string * val)) : rcall unit.
    (* from(table).delete().eq(c1, v1)... *)

(** The resolved [{ data, error }]: the client reports a refused call in
    [error] and leaves [data] null, otherwise [data] holds the result (one
    row after [.single()], the rows of a select, nothing for an update or a
    delete without select).  A select that resolves with neither is read as
    no rows, which is what [data || []] makes of it. *)
Inductive reply (X : Type) :=
| Data (data : X)
| Error (error : exn).
Arguments Data {X} data.
Arguments Error {X} error.

(** Awaiting a call either resolves to a reply or rejects (throws). *)
Inductive outcome (X : Type) :=
| Returns (r : reply X)
| Throws (e : exn).
Arguments Returns {X} r.
Arguments Throws {X} e.

(** One entry of the log of calls received by the remote store. *)
Inductive event :=
| Ev {X : Type} (c : rcall X) (o : outcome X).

(** ** React state of the two providers *)

Record TxState := {
  transactions : list obj;
  tx_isLoading : bool;
  tx_isConnected : bool;
  tx_isOffline : bool;
  tx_isSyncing : bool;
  tx_error : option string
}.

Record DataState := {
  expenseCategories : list val;
  incomeCategories : list val;
  paymentMethods : list val;
  dt_isLoading : bool;
  dt_isOffline : bool;
  dt_isSyncing : bool;
  dt_error : option string
}.


(** ** Operations and programs *)

(** The effects of the source.  The index is the type of the value the
    operation evaluates (or resolves) to. *)
Inductive op : Type → Type :=
| LfGet (key : string) : op (option (list obj))
    (* await offlineStore.getItem(key), an entity collection *)
| LfSet (key : string) (v : list obj) : op unit
    (* await offlineStore.setItem(key, v) *)
| LfSetDetached (key : string) (v : list obj) : op unit
    (* offlineStore.setItem(key, v) started and not awaited *)
| LfGetQueue : op (option (list Action))
    (* await offlineStore.getItem("sync-queue") *)
| LfSetQueue (q : list Action) : op unit
    (* await offlineStore.setItem("sync-queue", q) *)
| NavigatorOnLine : op bool
| DateNow : op N
| TxSet (f : TxState → TxState) : op unit
| DataSet (f : DataState → DataState) : op unit
| DataRead : op DataState
| Supabase {X : Type} (c : rcall X) : op (outcome X).

(** [awaits o]: the caller is suspended until [o] has completed. *)
Definition awaits {X} (o : op X) : bool :=
  match o with
  | LfGet _ | LfSet _ _ | LfGetQueue | LfSetQueue _ | Supabase _ => true
  | LfSetDetached _ _ | NavigatorOnLine | DateNow
  | TxSet _ | DataSet _ | DataRead => false
  end.

Inductive Prog (A : Type) : Type :=
| Ret (a : A)
| Throw (e : exn)
| Do {X : Type} (o : op X) (k : X → Prog A).
Arguments Ret {A} a.
Arguments Throw {A} e.
Arguments Do {A X} o k.

Fixpoint bind {A B} (p : Prog A) (f : A → Prog B) : Prog B :=
  match p with
  | Ret a => f a
  | Throw e => Throw e
  | Do o k => Do o (λ x, bind (k x) f)
  end.

(** [try { p } catch (e) { h e }] *)
Fixpoint try_catch {A} (p : Prog A) (h : exn → Prog A) : Prog A :=
  match p with
  | Ret a => Ret a
  | Throw e => h e
  | Do o k => Do o (λ x, try_catch (k x) h)
  end.

(** [try { p } finally { f }]: [f] runs on both exits and the exit of [p]
    is kept. *)
Fixpoint try_finally {A} (p : Prog A) (f : Prog unit) : Prog A :=
  match p with
  | Ret a => bind f (λ _, Ret a)
  | Throw e => bind f (λ _, Throw e)
  | Do o k => Do o (λ x, try_finally (k x) f)
  end.

Definition perform {X} (o : op X) : Prog X := Do o Ret.

(** [await call]: a rejected promise throws in the caller. *)
Definition await {X} (c : rcall X) : Prog (reply X) :=
  Do (Supabase c) (λ o, match o with Returns r => Ret r | Throws e => Throw e end).

(** [Prog] is a monad; stdpp's [x ← p; q] and [p ;; q] are used for it. *)
#[global] Instance Prog_ret : MRet Prog := @Ret.
#[global] Instance Prog_bind : MBind Prog := λ A B f p, bind p f.

(** [for (const x of l) { s = body s x }] with the loop-carried variable [s]. *)
Fixpoint for_of {A S} (l : list A) (body : S → A → Prog S) (s : S) : Prog S :=
  match l with
  | [] => Ret s
  | x :: l' => s' ← body s x; for_of l' body s'
  end.

(** ** [src/lib/utils.ts]: the offline store and the sync queue *)

Definition getItem (key : string) : Prog (option (list obj)) :=
  perform (LfGet key).

Definition setItem (key : string) (value : list obj) : Prog unit :=
  perform (LfSet key value).

(** [queue.push(action)] appends at the end. *)
Definition addToQueue (action : Action) : Prog unit :=
  queue ← perform LfGetQueue;
  perform (LfSetQueue (default [] queue ++ [action])).

Definition getQueue : Prog (list Action) :=
  queue ← perform LfGetQueue;
  Ret (default [] queue).

Definition clearQueue : Prog unit :=
  perform (LfSetQueue []).

(** What destructuring [undefined] throws. *)
Definition TypeError : exn :=
  {| instance_of_Error := true;
     message := "Cannot destructure property 'id' of 'action.data' as it is undefined." |}.

(** ** The transaction store ([TransactionProvider]) *)

Module TransactionProvider.

Definition setTransactions (f : list obj → list obj) (s : TxState) : TxState :=
  {| transactions := f (transactions s); tx_isLoading := tx_isLoading s;
     tx_isConnected := tx_isConnected s; tx_isOffline := tx_isOffline s;
     tx_isSyncing := tx_isSyncing s; tx_error := tx_error s |}.

Definition setIsLoading (b : bool) (s : TxState) : TxState :=
  {| transactions := transactions s; tx_isLoading := b;
     tx_isConnected := tx_isConnected s; tx_isOffline := tx_isOffline s;
     tx_isSyncing := tx_isSyncing s; tx_error := tx_error s |}.

Definition setIsConnected (b : bool) (s : TxState) : TxState :=
  {| transactions := transactions s; tx_isLoading := tx_isLoading s;
     tx_isConnected := b; tx_isOffline := tx_isOffline s;
     tx_isSyncing := tx_isSyncing s; tx_error := tx_error s |}.

Definition setIsOffline (b : bool) (s : TxState) : TxState :=
  {| transactions := transactions s; tx_isLoading := tx_isLoading s;
     tx_isConnected := tx_isConnected s; tx_isOffline := b;
     tx_isSyncing := tx_isSyncing s; tx_error := tx_error s |}.

Definition setIsSyncing (b : bool) (s : TxState) : TxState :=
  {| transactions := transactions s; tx_isLoading := tx_isLoading s;
     tx_isConnected := tx_isConnected s; tx_isOffline := tx_isOffline s;
     tx_isSyncing := b; tx_error := tx_error s |}.

Definition setError (e : option string) (s : TxState) : TxState :=
  {| transactions := transactions s; tx_isLoading := tx_isLoading s;
     tx_isConnected := tx_isConnected s; tx_isOffline := tx_isOffline s;
     tx_isSyncing := tx_isSyncing s; tx_error := e |}.


Definition set (f : TxState → TxState) : Prog unit := perform (TxSet f).

(** [`offline-${Date.now()}`] *)
Definition tempId (now : N) : string := "offline-" +:+ pretty now.

Definition refreshTransactions : Prog unit :=
  set (setIsLoading true);;
  set (setError None);;
  try_finally
    (try_catch
       (online ← perform NavigatorOnLine;
        if negb online then
          localTx ← getItem "transactions";
          set (setTransactions (λ _, default [] localTx));;
          set (setIsConnected false);;
          set (setIsOffline true)
        else
          r ← await (SelectOrder "transactions" "date" false);
          match r with
          | Error supabaseError => Throw supabaseError
          | Data data =>
              set (setTransactions (λ _, data));;
              perform (LfSetDetached "transactions" data);;
              set (setIsConnected true);;
              set (setIsOffline false)
          end)
       (λ error,
          set (setError (Some (error_message error "Failed to load transactions")));;
          set (setIsConnected false);;
          set (setIsOffline true)))
    (set (setIsLoading false)).

(** The body of the loop of [syncQueue] (lines 135-150), with the
    loop-carried [localTx].  [if (!error && data)] is the case [Data]. *)
Definition syncAction (localTx : list obj) (action : Action) : Prog (list obj) :=
  if (a_type action =? "add")%string then
    match a_data action with
    | None => Throw TypeError
    | Some d =>
        let id := get "id" d in
        let insertData := without_id d in
        r ← await (Insert "transactions" insertData);
        match r with
        | Data data =>
            let localTx := data :: filter (λ t, get "id" t ≠ id) localTx in
            set (setTransactions (λ _, localTx));;
            setItem "transactions" localTx;;
            Ret localTx
        | Error _ => Ret localTx
        end
    end
  else if (a_type action =? "update")%string then
    await (Update "transactions" (a_data action) [("id", a_id action)]);;
    Ret localTx
  else if (a_type action =? "delete")%string then
    await (Delete "transactions" [("id", a_id action)]);;
    Ret localTx
  else Ret localTx.

(** The drain proper: the reads and the loop of [syncQueue] (lines
    132-151); its value is the final [localTx]. *)
Definition drainQueue : Prog (list obj) :=
  localTx ← getItem "transactions";
  queue ← getQueue;
  for_of queue syncAction (default [] localTx).

Definition syncQueue : Prog unit :=
  set (setIsSyncing true);;
  try_finally
    (try_catch
       (drainQueue;;
        clearQueue;;
        refreshTransactions)
       (λ _, Ret tt))
    (set (setIsSyncing false)).

Definition addTransaction (transactionData : obj) : Prog unit :=
  set (setIsLoading true);;
  set (setError None);;
  try_finally
    (try_catch
       (online ← perform NavigatorOnLine;
        if negb online then
          localTx ← getItem "transactions";
          let localTx := default [] localTx in
          now ← perform DateNow;
          let newTx := <["id" := VStr (tempId now)]> transactionData in
          setItem "transactions" (newTx :: localTx);;
          addToQueue (add_action newTx);;
          set (setTransactions (λ _, newTx :: localTx))
        else
          r ← await (Insert "transactions" transactionData);
          match r with
          | Error supabaseError => Throw supabaseError
          | Data data =>
              set (setTransactions (λ prev, data :: prev));;
              localTx ← getItem "transactions";
              setItem "transactions" (data :: default [] localTx)
          end)
       (λ error,
          set (setError (Some (error_message error "Failed to add transaction")));;
          Throw error))
    (set (setIsLoading false)).

Definition removeTransaction (id : string) : Prog unit :=
  set (setIsLoading true);;
  set (setError None);;
  try_finally
    (try_catch
       (online ← perform NavigatorOnLine;
        if negb online then
          localTx ← getItem "transactions";
          let localTx := default [] localTx in
          setItem "transactions" (filter (λ t, get "id" t ≠ VStr id) localTx);;
          addToQueue (delete_action (VStr id));;
          set (setTransactions (λ _, filter (λ t, get "id" t ≠ VStr id) localTx))
        else
          r ← await (Delete "transactions" [("id", VStr id)]);
          match r with
          | Error supabaseError => Throw supabaseError
          | Data _ =>
              localTx ← getItem "transactions";
              setItem "transactions"
                (filter (λ t, get "id" t ≠ VStr id) (default [] localTx));;
              set (setTransactions (filter (λ t, get "id" t ≠ VStr id)))
          end)
       (λ error,
          set (setError (Some (error_message error "Failed to remove transaction")));;
          Throw error))
    (set (setIsLoading false)).

(** [t.id === id ? { ...t, ...updates } : t] *)
Definition patch (id : string) (updates : obj) (t : obj) : obj :=
  if strict_eq (get "id" t) (VStr id) then spread t updates else t.

(** [l.find(t => t.id === id)] *)
Definition find_by_id (id : string) (l : list obj) : option obj :=
  List.find (λ t, strict_eq (get "id" t) (VStr id)) l.

Definition updateTransaction (id : string) (updates : obj) : Prog (option obj) :=
  set (setIsLoading true);;
  set (setError None);;
  try_finally
    (try_catch
       (online ← perform NavigatorOnLine;
        if negb online then
          localTx ← getItem "transactions";
          let updatedTx := patch id updates <$> default [] localTx in
          setItem "transactions" updatedTx;;
          addToQueue (update_action (VStr id) updates);;
          set (setTransactions (λ _, updatedTx));;
          Ret (find_by_id id updatedTx)
        else
          r ← await (UpdateSingle "transactions" updates [("id", VStr id)]);
          match r with
          | Error supabaseError => Throw supabaseError
          | Data data =>
              localTx ← getItem "transactions";
              let updatedTx := patch id updates <$> default [] localTx in
              setItem "transactions" updatedTx;;
              set (setTransactions (fmap (patch id updates)));;
              Ret (Some data)
          end)
       (λ error,
          set (setError (Some (error_message error "Failed to update transaction")));;
          Throw error))
    (set (setIsLoading false)).

(** [t[field] === oldValue ? { ...t, [field]: newValue } : t] *)
Definition rename (field oldValue newValue : string) (t : obj) : obj :=
  if strict_eq (get field t) (VStr oldValue)
  then <[field := VStr newValue]> t else t.

Definition bulkRenameInTransactions (field oldValue newValue : string)
    : Prog unit :=
  set (setIsLoading true);;
  set (setError None);;
  try_finally
    (try_catch
       (online ← perform NavigatorOnLine;
        if negb online then
          localTx ← getItem "transactions";
          let updatedTx := rename field oldValue newValue <$> default [] localTx in
          setItem "transactions" updatedTx;;
          addToQueue (bulkRename_action field oldValue newValue);;
          set (setTransactions (λ _, updatedTx))
        else
          r ← await (Update "transactions" (Some {[field := VStr newValue]})
                            [(field, VStr oldValue)]);
          match r with
          | Error supabaseError => Throw supabaseError
          | Data _ =>
              localTx ← getItem "transactions";
              let updatedTx :=
                rename field oldValue newValue <$> default [] localTx in
              setItem "transactions" updatedTx;;
              set (setTransactions (λ _, updatedTx))
          end)
       (λ error,
          set (setError (Some (error_message error "Failed to bulk rename")));;
          Throw error))
    (set (setIsLoading false)).

End TransactionProvider.

(** ** The category / payment-method store ([DataProvider]) *)

(** [String.prototype.trim] is a built-in of the engine: the functions of
    the store that call it take it as a parameter [trim], and what is proved
    of them holds for whatever function the engine provides.

    [trim_utf8] is the instance used to evaluate them.  A string of the
    model is the sequence of bytes of the UTF-8 encoding of the JavaScript
    string; [trim_utf8] removes from both ends the white space and the line
    terminators of ECMAScript: U+0009 to U+000D, U+0020, U+00A0, U+1680,
    U+2000 to U+200A, U+2028, U+2029, U+202F, U+205F, U+3000 and U+FEFF. *)
Definition bytes (codes : list nat) : string :=
  foldr (λ n s, String (ascii_of_nat n) s) EmptyString codes.

Definition white_space : list string :=
  bytes <$>
    [ [9]; [10]; [11]; [12]; [13]; [32];
      [194; 160];
      [225; 154; 128];
      [226; 128; 128]; [226; 128; 129]; [226; 128; 130]; [226; 128; 131];
      [226; 128; 132]; [226; 128; 133]; [226; 128; 134]; [226; 128; 135];
      [226; 128; 136]; [226; 128; 137]; [226; 128; 138];
      [226; 128; 168]; [226; 128; 169]; [226; 128; 175];
      [226; 129; 159];
      [227; 128; 128];
      [239; 187; 191] ].

(** [drop_prefix p s]: [s] without its prefix [p], if it starts with [p]. *)
Fixpoint drop_prefix (p s : string) : option string :=
  match p, s with
  | EmptyString, _ => Some s
  | String a p', String b s' =>
      if Ascii.eqb a b then drop_prefix p' s' else None
  | String _ _, EmptyString => None
  end.

(** [s] without the white-space character it starts with, if any. *)
Definition drop_white_space (ws : list string) (s : string) : option string :=
  list_find is_Some ((λ p, drop_prefix p s) <$> ws) ≫= snd.

Fixpoint drop_white_spaces (ws : list string) (n : nat) (s : string) : string :=
  match n with
  | O => s
  | S n' =>
      match drop_white_space ws s with
      | Some s' => drop_white_spaces ws n' s'
      | None => s
      end
  end.

Definition trimStart_utf8 (s : string) : string :=
  drop_white_spaces white_space (String.length s) s.

Definition trimEnd_utf8 (s : string) : string :=
  String.rev
    (drop_white_spaces (String.rev <$> white_space) (String.length s)
       (String.rev s)).

Definition trim_utf8 (s : string) : string := trimEnd_utf8 (trimStart_utf8 s).

(** The no-break space U+00A0. *)
Definition nbsp : string := bytes [194; 160].

Module DataProvider.

Definition setExpenseCategories (f : list val → list val) (s : DataState) :=
  {| expenseCategories := f (expenseCategories s);
     incomeCategories := incomeCategories s;
     paymentMethods := paymentMethods s; dt_isLoading := dt_isLoading s;
     dt_isOffline := dt_isOffline s; dt_isSyncing := dt_isSyncing s;
     dt_error := dt_error s |}.

Definition setIncomeCategories (f : list val → list val) (s : DataState) :=
  {| expenseCategories := expenseCategories s;
     incomeCategories := f (incomeCategories s);
     paymentMethods := paymentMethods s; dt_isLoading := dt_isLoading s;
     dt_isOffline := dt_isOffline s; dt_isSyncing := dt_isSyncing s;
     dt_error := dt_error s |}.

Definition setPaymentMethods (f : list val → list val) (s : DataState) :=
  {| expenseCategories := expenseCategories s;
     incomeCategories := incomeCategories s;
     paymentMethods := f (paymentMethods s); dt_isLoading := dt_isLoading s;
     dt_isOffline := dt_isOffline s; dt_isSyncing := dt_isSyncing s;
     dt_error := dt_error s |}.

Definition setIsLoading (b : bool) (s : DataState) :=
  {| expenseCategories := expenseCategories s;
     incomeCategories := incomeCategories s;
     paymentMethods := paymentMethods s; dt_isLoading := b;
     dt_isOffline := dt_isOffline s; dt_isSyncing := dt_isSyncing s;
     dt_error := dt_error s |}.

Definition setIsOffline (b : bool) (s : DataState) :=
  {| expenseCategories := expenseCategories s;
     incomeCategories := incomeCategories s;
     paymentMethods := paymentMethods s; dt_isLoading := dt_isLoading s;
     dt_isOffline := b; dt_isSyncing := dt_isSyncing s;
     dt_error := dt_error s |}.

Definition setIsSyncing (b : bool) (s : DataState) :=
  {| expenseCategories := expenseCategories s;
     incomeCategories := incomeCategories s;
     paymentMethods := paymentMethods s; dt_isLoading := dt_isLoading s;
     dt_isOffline := dt_isOffline s; dt_isSyncing := b;
     dt_error := dt_error s |}.

Definition setError (e : option string) (s : DataState) :=
  {| expenseCategories := expenseCategories s;
     incomeCategories := incomeCategories s;
     paymentMethods := paymentMethods s; dt_isLoading := dt_isLoading s;
     dt_isOffline := dt_isOffline s; dt_isSyncing := dt_isSyncing s;
     dt_error := e |}.

Definition set (f : DataState → DataState) : Prog unit := perform (DataSet f).

(** [l.filter(c => c.type === type).map(c => c.name)] *)
Definition names_of_type (type : string) (l : list obj) : list val :=
  get "name" <$> filter (λ c, get "type" c = VStr type) l.

Definition refreshData : Prog unit :=
  set (setIsLoading true);;
  set (setError None);;
  try_finally
    (try_catch
       (online ← perform NavigatorOnLine;
        if negb online then
          localCategories ← getItem "categories";
          localPaymentMethods ← getItem "payment_methods";
          set (setExpenseCategories
                 (λ _, names_of_type "expense" (default [] localCategories)));;
          set (setIncomeCategories
                 (λ _, names_of_type "income" (default [] localCategories)));;
          set (setPaymentMethods
                 (λ _, get "name" <$> default [] localPaymentMethods));;
          set (setIsOffline true)
        else
          r ← await (SelectOrder "categories" "order" true);
          match r with
          | Error categoriesError => Throw categoriesError
          | Data categoriesData =>
              r' ← await (SelectOrder "payment_methods" "order" true);
              match r' with
              | Error paymentMethodsError => Throw paymentMethodsError
              | Data paymentMethodsData =>
                  set (setExpenseCategories
                         (λ _, names_of_type "expense" categoriesData));;
                  set (setIncomeCategories
                         (λ _, names_of_type "income" categoriesData));;
                  set (setPaymentMethods
                         (λ _, get "name" <$> paymentMethodsData));;
                  setItem "categories" categoriesData;;
                  setItem "payment_methods" paymentMethodsData;;
                  set (setIsOffline false)
              end
          end)
       (λ error,
          set (setError (Some (error_message error "Failed to load data")));;
          set (setIsOffline true)))
    (set (setIsLoading false)).

(** One branch of the loop of [syncQueue]: the entries of one entity kind,
    replayed on [table] and folded into the local copy [local] kept under
    [key]. *)
Definition syncEntity (table key : string) (local : list obj) (action : Action)
    : Prog (list obj) :=
  if (a_type action =? "add")%string then
    match a_data action with
    | None => Throw TypeError
    | Some d =>
        let id := get "id" d in
        let insertData := without_id d in
        r ← await (Insert table insertData);
        match r with
        | Data data =>
            let local := filter (λ c, get "id" c ≠ id) local ++ [data] in
            setItem key local;;
            Ret local
        | Error _ => Ret local
        end
    end
  else if (a_type action =? "delete")%string then
    await (Delete table [("id", a_id action)]);;
    let local := filter (λ c, get "id" c ≠ a_id action) local in
    setItem key local;;
    Ret local
  else Ret local.

(** The body of the loop of [syncQueue]; the loop carries
    [(localCategories, localPaymentMethods)]. *)
Definition syncAction (locals : list obj * list obj) (action : Action)
    : Prog (list obj * list obj) :=
  let '(localCategories, localPaymentMethods) := locals in
  if bool_decide (a_entity action = Some "category") then
    localCategories ← syncEntity "categories" "categories" localCategories action;
    Ret (localCategories, localPaymentMethods)
  else if bool_decide (a_entity action = Some "payment_method") then
    localPaymentMethods ←
      syncEntity "payment_methods" "payment_methods" localPaymentMethods action;
    Ret (localCategories, localPaymentMethods)
  else Ret locals.

Definition drainQueue : Prog (list obj * list obj) :=
  localCategories ← getItem "categories";
  localPaymentMethods ← getItem "payment_methods";
  queue ← getQueue;
  for_of queue syncAction
    (default [] localCategories, default [] localPaymentMethods).

Definition syncQueue : Prog unit :=
  set (setIsSyncing true);;
  try_finally
    (try_catch
       (drainQueue;;
        clearQueue;;
        refreshData)
       (λ _, Ret tt))
    (set (setIsSyncing false)).

Section Adds.

(** [String.prototype.trim], as the engine provides it. *)
Variable trim : string → string.

(** [addExpenseCategory] and [addIncomeCategory] differ in the category
    type, the list of names they read and set, and the fallback message.
    The list of names tested by the guard is the one the component holds
    when the function is called. *)
Definition addCategory (type : string)
    (names : DataState → list val)
    (setNames : (list val → list val) → DataState → DataState)
    (fallback : string) (category : string) : Prog unit :=
  state ← perform DataRead;
  if (trim category =? "")%string
     || bool_decide (VStr category ∈ names state) then Ret tt
  else
    set (setIsLoading true);;
    set (setError None);;
    try_finally
      (try_catch
         (online ← perform NavigatorOnLine;
          if negb online then
            localCategories ← getItem "categories";
            now ← perform DateNow;
            let tempId := "offline-cat-" +:+ pretty now in
            let newCat : obj :=
              {[ "id" := VStr tempId; "name" := VStr category;
                 "type" := VStr type ]} in
            setItem "categories" (default [] localCategories ++ [newCat]);;
            addToQueue (entity_add_action "category" newCat);;
            set (setNames (λ prev, prev ++ [VStr category]))
          else
            r ← await (Insert "categories"
                         {[ "name" := VStr category; "type" := VStr type ]});
            match r with
            | Error supabaseError => Throw supabaseError
            | Data data =>
                localCategories ← getItem "categories";
                setItem "categories" (default [] localCategories ++ [data]);;
                set (setNames (λ prev, prev ++ [VStr category]))
            end)
         (λ error, set (setError (Some (error_message error fallback)))))
      (set (setIsLoading false)).

Definition addExpenseCategory : string → Prog unit :=
  addCategory "expense" expenseCategories setExpenseCategories
    "Failed to add expense category".

Definition addIncomeCategory : string → Prog unit :=
  addCategory "income" incomeCategories setIncomeCategories
    "Failed to add income category".

Definition addPaymentMethod (method : string) : Prog unit :=
  state ← perform DataRead;
  if (trim method =? "")%string
     || bool_decide (VStr method ∈ paymentMethods state) then Ret tt
  else
    set (setIsLoading true);;
    set (setError None);;
    try_finally
      (try_catch
         (online ← perform NavigatorOnLine;
          if negb online then
            localPaymentMethods ← getItem "payment_methods";
            now ← perform DateNow;
            let tempId := "offline-pay-" +:+ pretty now in
            let newPay : obj :=
              {[ "id" := VStr tempId; "name" := VStr method ]} in
            setItem "payment_methods"
              (default [] localPaymentMethods ++ [newPay]);;
            addToQueue (entity_add_action "payment_method" newPay);;
            set (setPaymentMethods (λ prev, prev ++ [VStr method]))
          else
            r ← await (Insert "payment_methods" {[ "name" := VStr method ]});
            match r with
            | Error supabaseError => Throw supabaseError
            | Data data =>
                localPaymentMethods ← getItem "payment_methods";
                setItem "payment_methods"
                  (default [] localPaymentMethods ++ [data]);;
                set (setPaymentMethods (λ prev, prev ++ [VStr method]))
            end)
         (λ error,
            set (setError
                   (Some (error_message error "Failed to add payment method")))))
      (set (setIsLoading false)).

End Adds.

(** [removeExpenseCategory] and [removeIncomeCategory], likewise. *)
Definition removeCategory (type : string)
    (setNames : (list val → list val) → DataState → DataState)
    (fallback : string) (category : string) : Prog unit :=
  set (setIsLoading true);;
  set (setError None);;
  try_finally
    (try_catch
       (online ← perform NavigatorOnLine;
        if negb online then
          localCategories ← getItem "categories";
          let localCategories := default [] localCategories in
          match List.find (λ c, strict_eq (get "name" c) (VStr category)
                                && strict_eq (get "type" c) (VStr type))
                          localCategories with
          | Some cat =>
              setItem "categories"
                (filter (λ c, get "id" c ≠ get "id" cat) localCategories);;
              addToQueue (entity_delete_action "category" (get "id" cat))
          | None => Ret tt
          end;;
          set (setNames (filter (λ c, c ≠ VStr category)))
        else
          r ← await (Delete "categories"
                       [("name", VStr category); ("type", VStr type)]);
          match r with
          | Error supabaseError => Throw supabaseError
          | Data _ =>
              localCategories ← getItem "categories";
              setItem "categories"
                (filter (λ c, ¬ (get "name" c = VStr category
                                 ∧ get "type" c = VStr type))
                        (default [] localCategories));;
              set (setNames (filter (λ c, c ≠ VStr category)))
          end)
       (λ error, set (setError (Some (error_message error fallback)))))
    (set (setIsLoading false)).

Definition removeExpenseCategory : string → Prog unit :=
  removeCategory "expense" setExpenseCategories
    "Failed to remove expense category".

Definition removeIncomeCategory : string → Prog unit :=
  removeCategory "income" setIncomeCategories
    "Failed to remove income category".

Definition removePaymentMethod (method : string) : Prog unit :=
  set (setIsLoading true);;
  set (setError None);;
  try_finally
    (try_catch
       (online ← perform NavigatorOnLine;
        if negb online then
          localPaymentMethods ← getItem "payment_methods";
          let localPaymentMethods := default [] localPaymentMethods in
          match List.find (λ p, strict_eq (get "name" p) (VStr method))
                          localPaymentMethods with
          | Some pay =>
              setItem "payment_methods"
                (filter (λ p, get "id" p ≠ get "id" pay) localPaymentMethods);;
              addToQueue (entity_delete_action "payment_method" (get "id" pay))
          | None => Ret tt
          end;;
          set (setPaymentMethods (filter (λ m, m ≠ VStr method)))
        else
          r ← await (Delete "payment_methods" [("name", VStr method)]);
          match r with
          | Error supabaseError => Throw supabaseError
          | Data _ =>
              localPaymentMethods ← getItem "payment_methods";
              setItem "payment_methods"
                (filter (λ p, get "name" p ≠ VStr method)
                        (default [] localPaymentMethods));;
              set (setPaymentMethods (filter (λ m, m ≠ VStr method)))
          end)
       (λ error,
          set (setError
                 (Some (error_message error "Failed to remove payment method")))))
    (set (setIsLoading false)).

(** The body of the loops of [updateCategoryOrder] and
    [updatePaymentMethodOrder]: position [i] is written in the column
    [order] of the rows selected by [filters]; the reply is not looked at. *)
Definition setOrder (table : string) (i : nat) (filters : list (string * val))
    : Prog unit :=
  await (Update table (Some {[ "order" := VNum (Z.of_nat i) ]}) filters);;
  Ret ().

(** [for (let i = 0; i < orderedNames.length; i++) ...] in a
    [try { ... } finally { setIsLoading(false) }] without [catch]. *)
Definition updateCategoryOrder (type : string) (orderedNames : list string)
    : Prog unit :=
  set (setIsLoading true);;
  try_finally
    (for_of (imap pair orderedNames)
       (λ _ '(i, name),
          setOrder "categories" i [("name", VStr name); ("type", VStr type)])
       ();;
     refreshData)
    (set (setIsLoading false)).

Definition updatePaymentMethodOrder (orderedNames : list string) : Prog unit :=
  set (setIsLoading true);;
  try_finally
    (for_of (imap pair orderedNames)
       (λ _ '(i, name), setOrder "payment_methods" i [("name", VStr name)])
       ();;
     refreshData)
    (set (setIsLoading false)).

End DataProvider.

(** How a call of an async function ends. *)
Inductive result (A : Type) :=
| Done (a : A)
| Thrown (e : exn).
Arguments Done {A} a.
Arguments Thrown {A} e.


(** ** The world a program runs in *)

Record World {R : Type} := {
  storage : gmap string (list obj);   (* the localforage instance *)
  sync_queue : option (list Action);  (* its key "sync-queue" *)
  onLine : bool;                      (* navigator.onLine *)
  clock : N;                          (* Date.now(); read at most once per call *)
  tx : TxState;
  dt : DataState;
  remote : R;                         (* state of the remote store *)
  trace : list event                  (* calls received by the remote store *)
}.
Arguments World R : clear implicits.

Section Semantics.
Context {R : Type}.

(** The remote store: how it answers a call and how its state changes. *)
Variable supabase : ∀ X, rcall X → R → R * outcome X.

Definition set_storage (f : gmap string (list obj) → gmap string (list obj))
    (w : World R) : World R :=
  {| storage := f (storage w); sync_queue := sync_queue w;
     onLine := onLine w; clock := clock w; tx := tx w; dt := dt w;
     remote := remote w; trace := trace w |}.

Definition set_sync_queue (q : option (list Action)) (w : World R) : World R :=
  {| storage := storage w; sync_queue := q;
     onLine := onLine w; clock := clock w; tx := tx w; dt := dt w;
     remote := remote w; trace := trace w |}.

Definition set_tx (f : TxState → TxState) (w : World R) : World R :=
  {| storage := storage w; sync_queue := sync_queue w;
     onLine := onLine w; clock := clock w; tx := f (tx w); dt := dt w;
     remote := remote w; trace := trace w |}.

Definition set_dt (f : DataState → DataState) (w : World R) : World R :=
  {| storage := storage w; sync_queue := sync_queue w;
     onLine := onLine w; clock := clock w; tx := tx w; dt := f (dt w);
     remote := remote w; trace := trace w |}.

Definition set_onLine (b : bool) (w : World R) : World R :=
  {| storage := storage w; sync_queue := sync_queue w;
     onLine := b; clock := clock w; tx := tx w; dt := dt w;
     remote := remote w; trace := trace w |}.

Definition set_clock (t : N) (w : World R) : World R :=
  {| storage := storage w; sync_queue := sync_queue w;
     onLine := onLine w; clock := t; tx := tx w; dt := dt w;
     remote := remote w; trace := trace w |}.

(** The remote store receives [c]: it answers, and the call is logged. *)
Definition call {X} (c : rcall X) (w : World R) : World R * outcome X :=
  let '(r', o) := supabase X c (remote w) in
  ({| storage := storage w; sync_queue := sync_queue w;
      onLine := onLine w; clock := clock w; tx := tx w; dt := dt w;
      remote := r'; trace := trace w ++ [Ev c o] |}, o).

Definition exec {X} (o : op X) : World R → World R * X :=
  match o in op X return World R → World R * X with
  | LfGet key => λ w, (w, storage w !! key)
  | LfSet key v => λ w, (set_storage <[key := v]> w, tt)
  | LfSetDetached key v => λ w, (set_storage <[key := v]> w, tt)
  | LfGetQueue => λ w, (w, sync_queue w)
  | LfSetQueue q => λ w, (set_sync_queue (Some q) w, tt)
  | NavigatorOnLine => λ w, (w, onLine w)
  | DateNow => λ w, (w, clock w)
  | TxSet f => λ w, (set_tx f w, tt)
  | DataSet f => λ w, (set_dt f w, tt)
  | DataRead => λ w, (w, dt w)
  | Supabase c => call c
  end.

(** Run a program to completion, with no other program in between. *)
Fixpoint run {A} (p : Prog A) (w : World R) : World R * result A :=
  match p with
  | Ret a => (w, Done a)
  | Throw e => (w, Thrown e)
  | Do o k => let '(w', x) := exec o w in run (k x) w'
  end.

(** Run the synchronous operations at the head of a program: it stops in
    front of the next awaited operation, or at the end. *)
Fixpoint advance {A} (p : Prog A) (w : World R) : World R * Prog A :=
  match p with
  | Do o k =>
      if awaits o then (w, p)
      else let '(w', x) := exec o w in advance (k x) w'
  | _ => (w, p)
  end.

(** The awaited operation a suspended program waits for completes, and the
    program goes on up to its next suspension. *)
Definition resume {A} (p : Prog A) (w : World R) : World R * Prog A :=
  match p with
  | Do o k => let '(w', x) := exec o w in advance (k x) w'
  | _ => (w, p)
  end.

(** *** Pending calls

    The calls of async functions that have been started, each suspended at
    an [await] or finished.  A schedule names, step by step, the call whose
    awaited operation completes next. *)
Definition pool : Type := list (Prog unit).

(** Calling an async function without awaiting it. *)
Definition spawn (p : Prog unit) (s : pool * World R) : pool * World R :=
  let '(w', p') := advance p s.2 in (s.1 ++ [p'], w').

Definition step (i : nat) (s : pool * World R) : pool * World R :=
  match s.1 !! i with
  | Some p => let '(w', p') := resume p s.2 in (<[i := p']> s.1, w')
  | None => s
  end.

Definition schedule (order : list nat) (s : pool * World R) : pool * World R :=
  foldl (λ s i, step i s) s order.

(** [finished p]: the call has returned or thrown. *)
Definition finished {A} (p : Prog A) : bool :=
  match p with Do _ _ => false | _ => true end.

(** The listeners of the transaction store (lines 74-82 and 290-295 of its
    source). *)
Definition handleOnline (s : pool * World R) : pool * World R :=
  spawn TransactionProvider.syncQueue
    (s.1, set_tx (λ t, TransactionProvider.setIsOffline false
                         (TransactionProvider.setIsConnected true t)) s.2).

Definition handleOffline (s : pool * World R) : pool * World R :=
  (s.1, set_tx (λ t, TransactionProvider.setIsOffline true
                       (TransactionProvider.setIsConnected false t)) s.2).

(** The effect that runs after a render in which [isConnected] or
    [isOffline] has changed. *)
Definition connectivityEffect (s : pool * World R) : pool * World R :=
  if tx_isConnected (tx s.2) && negb (tx_isOffline (tx s.2))
  then spawn TransactionProvider.syncQueue s
  else s.

End Semantics.

(** ** Orderings on rows *)

Definition rank (v : val) : nat :=
  match v with VUndef => 0 | VNull => 1 | VNum _ => 2 | VStr _ => 3 end.

(** Strings compare as byte strings, which on ISO dates [YYYY-MM-DD] is the
    order of the calendar. *)
Definition val_leb (a b : val) : bool :=
  match a, b with
  | VStr s, VStr t => String.leb s t
  | VNum m, VNum n => (m <=? n)%Z
  | _, _ => (rank a <=? rank b)%nat
  end.

Definition row_leb (column : string) (ascending : bool) (a b : obj) : bool :=
  if ascending then val_leb (get column a) (get column b)
  else val_leb (get column b) (get column a).

(** [ordered_by column ascending l]: [l] is in the order that
    [.order(column, { ascending })] asks for. *)
Fixpoint ordered_by (column : string) (ascending : bool) (l : list obj) : bool :=
  match l with
  | a :: l' =>
      match l' with
      | b :: _ => row_leb column ascending a b && ordered_by column ascending l'
      | [] => true
      end
  | [] => true
  end.

(** ** Sample remote stores

    The remote store is a parameter of the semantics.  These instances are
    used to evaluate the engine on concrete scenarios. *)

(** The state of [server]: the rows of each table and the number of
    identifiers issued so far. *)
Record Tables := { rows : gmap string (list obj); issued : N }.

Definition table_of (s : Tables) (table : string) : list obj :=
  default [] (rows s !! table).

Definition set_table (table : string) (l : list obj) (s : Tables) : Tables :=
  {| rows := <[table := l]> (rows s); issued := issued s |}.

Definition matches (filters : list (string * val)) (r : obj) : bool :=
  forallb (λ f, strict_eq (get f.1 r) f.2) filters.

Fixpoint insert_by (leb : obj → obj → bool) (x : obj) (l : list obj) : list obj :=
  match l with
  | y :: l' => if leb x y then x :: l else y :: insert_by leb x l'
  | [] => [x]
  end.

Definition order_by (column : string) (ascending : bool) (l : list obj) : list obj :=
  foldr (insert_by (row_leb column ascending)) [] l.

Definition not_single : exn :=
  {| instance_of_Error := false;
     message := "JSON object requested, multiple (or no) rows returned" |}.

(** A store that accepts every call: it issues the identifiers [srv-0],
    [srv-1], ... and keeps the rows of each table. *)
Definition server (X : Type) (c : rcall X) : Tables → Tables * outcome X :=
  match c in rcall X return Tables → Tables * outcome X with
  | Insert table row => λ s,
      let data := <["id" := VStr ("srv-" +:+ pretty (issued s))]> row in
      ({| rows := <[table := table_of s table ++ [data]]> (rows s);
          issued := N.succ (issued s) |},
       Returns (Data data))
  | SelectOrder table column ascending => λ s,
      (s, Returns (Data (order_by column ascending (table_of s table))))
  | Update table payload filters => λ s,
      (set_table table
         ((λ r, if matches filters r then spread r (default ∅ payload) else r)
            <$> table_of s table) s,
       Returns (Data ()))
  | UpdateSingle table payload filters => λ s,
      match List.filter (matches filters) (table_of s table) with
      | [r] =>
          (set_table table
             ((λ r, if matches filters r then spread r payload else r)
                <$> table_of s table) s,
           Returns (Data (spread r payload)))
      | _ => (s, Returns (Error not_single))
      end
  | Delete table filters => λ s,
      (set_table table
         (List.filter (λ r, negb (matches filters r)) (table_of s table)) s,
       Returns (Data ()))
  end.

(** A store that refuses every call: the client resolves to
    [{ data: null, error }]. *)
Definition refusing (error : exn) (X : Type) (c : rcall X) (s : unit)
    : unit * outcome X :=
  (s, Returns (Error error)).

(** A store that cannot be reached, with a client that rejects. *)
Definition unreachable (e : exn) (X : Type) (c : rcall X) (s : unit)
    : unit * outcome X :=
  (s, Throws e).

(** The state of the application when the providers mount. *)
Definition mount {R} (online : bool) (now : N) (r : R) : World R :=
  {| storage := ∅; sync_queue := None; onLine := online; clock := now;
     tx := {| transactions := []; tx_isLoading := false;
              tx_isConnected := online; tx_isOffline := negb online;
              tx_isSyncing := false; tx_error := None |};
     dt := {| expenseCategories := []; incomeCategories := [];
              paymentMethods := []; dt_isLoading := false;
              dt_isOffline := negb online; dt_isSyncing := false;
              dt_error := None |};
     remote := r; trace := [] |}.

(** Entities of the scenarios. *)
Definition lunch : obj :=
  {[ "date" := VStr "2024-01-05"; "amount" := VNum 42; "category" := VStr "Food" ]}.

Definition rent : obj :=
  {[ "id" := VStr "srv-7"; "date" := VStr "2024-02-01"; "amount" := VNum 900;
     "category" := VStr "Housing" ]}.

Definition refused : exn :=
  {| instance_of_Error := false; message := "new row violates row-level security policy" |}.

Definition network_down : exn :=
  {| instance_of_Error := true; message := "Failed to fetch" |}.

(** ** Vocabulary of the properties *)

(** The writes a caller issues on the transaction store. *)
Inductive write :=
| AddTransaction (transactionData : obj)
| RemoveTransaction (id : string)
| UpdateTransaction (id : string) (updates : obj)
| BulkRename (field oldValue newValue : string).

Definition issue (wr : write) : Prog unit :=
  match wr with
  | AddTransaction transactionData =>
      TransactionProvider.addTransaction transactionData
  | RemoveTransaction id => TransactionProvider.removeTransaction id
  | UpdateTransaction id updates =>
      TransactionProvider.updateTransaction id updates;; Ret ()
  | BulkRename field oldValue newValue =>
      TransactionProvider.bulkRenameInTransactions field oldValue newValue
  end.

(** The queue entry that a write made at time [now] leaves when offline. *)
Definition entry_of (now : N) (wr : write) : Action :=
  match wr with
  | AddTransaction transactionData =>
      add_action (<["id" := VStr (TransactionProvider.tempId now)]> transactionData)
  | RemoveTransaction id => delete_action (VStr id)
  | UpdateTransaction id updates => update_action (VStr id) updates
  | BulkRename field oldValue newValue =>
      bulkRename_action field oldValue newValue
  end.

(** The message a failed write leaves in [error] when the error value is
    not an [Error]. *)
Definition fallback_of (wr : write) : string :=
  match wr with
  | AddTransaction _ => "Failed to add transaction"
  | RemoveTransaction _ => "Failed to remove transaction"
  | UpdateTransaction _ _ => "Failed to update transaction"
  | BulkRename _ _ _ => "Failed to bulk rename"
  end.

(** How an awaited call failed, if it did: with an error in the reply, or
    with a rejected promise. *)
Definition failure {X} (o : outcome X) : option exn :=
  match o with
  | Returns (Error e) => Some e
  | Throws e => Some e
  | Returns (Data _) => None
  end.

(** A call as received by the remote store, without its answer. *)
Inductive request :=
| Request {X : Type} (c : rcall X).

Definition request_of (ev : event) : request :=
  match ev with Ev c _ => Request c end.



(** Identifiers made up by the client carry the prefix [offline-]. *)
Definition is_temporary (id : val) : bool :=
  match id with
  | VStr s => String.prefix "offline-" s
  | _ => false
  end.



(** The three lists of names of the category / payment-method store. *)
Inductive name_list := ExpenseCategories | IncomeCategories | PaymentMethods.

Definition names_in (k : name_list) (s : DataState) : list val :=
  match k with
  | ExpenseCategories => expenseCategories s
  | IncomeCategories => incomeCategories s
  | PaymentMethods => paymentMethods s
  end.

Definition add_name (trim : string → string) (k : name_list)
    : string → Prog unit :=
  match k with
  | ExpenseCategories => DataProvider.addExpenseCategory trim
  | IncomeCategories => DataProvider.addIncomeCategory trim
  | PaymentMethods => DataProvider.addPaymentMethod trim
  end.

(** ** Scenarios *)

Definition empty_tables : Tables := {| rows := ∅; issued := 0 |}.

(** A remote store that already holds [rent], and a client that has
    loaded it while online and then lost the network. *)
Definition with_rent : Tables :=
  {| rows := {[ "transactions" := [rent] ]}; issued := 8 |}.

Definition offline_after_load : World Tables :=
  set_onLine false
    (run server TransactionProvider.refreshTransactions
       (mount true 100 with_rent)).1.

(** Scenario B: an entity is added and then deleted while offline, and the
    network comes back. *)
Definition added_then_deleted : World Tables :=
  set_onLine true
    (run server (TransactionProvider.removeTransaction "offline-100")
       (run server (TransactionProvider.addTransaction lunch)
          (mount false 100 empty_tables)).1).1.

(** Scenario C: a category is renamed in all transactions while offline,
    and the network comes back. *)
Definition groceries : obj :=
  {[ "id" := VStr "srv-3"; "date" := VStr "2024-01-09"; "amount" := VNum 18;
     "category" := VStr "Food" ]}.

Definition with_groceries : Tables :=
  {| rows := {[ "transactions" := [groceries] ]}; issued := 4 |}.

Definition renamed_offline : World Tables :=
  set_onLine true
    (run server (TransactionProvider.bulkRenameInTransactions "category" "Food" "Dining")
       (set_onLine false
          (run server TransactionProvider.refreshTransactions
             (mount true 100 with_groceries)).1)).1.

(** A category as [addExpenseCategory] makes it up while offline. *)
Definition pets : obj :=
  {[ "id" := VStr "offline-cat-100"; "name" := VStr "Pets";
     "type" := VStr "expense" ]}.

(** Scenario A: a transaction is added while offline. *)
Definition added_offline : World Tables :=
  (run server (TransactionProvider.addTransaction lunch)
     (mount false 100 empty_tables)).1.

(** The network comes back: the browser raises [online], the listener of
    the transaction store runs, and after the render that follows the
    effect on [isConnected] and [isOffline] runs. *)
Definition back_online : pool * World Tables :=
  handleOnline server ([], set_onLine true added_offline).

Definition back_online_rendered : pool * World Tables :=
  connectivityEffect server back_online.

(** The number of inserts in a log of calls. *)
Definition is_insert (rq : request) : bool :=
  match rq with
  | Request c => match c with Insert _ _ => true | _ => false end
  end.

Definition inserts (t : list event) : nat :=
  length (List.filter is_insert (request_of <$> t)).

(** A write refused by the remote store while online (scenario of C1). *)
Definition deleted_offline : World unit :=
  set_onLine true
    (run (refusing refused) (TransactionProvider.removeTransaction "srv-7")
       (set_storage <["transactions" := [rent]]> (mount false 100 ()))).1.

Definition category_deleted_offline : World unit :=
  set_onLine true
    (set_sync_queue (Some [entity_delete_action "category" (VStr "srv-2")])
       (mount false 100 ())).

(** The remote call a write makes when online. *)
Definition remote_call_of (wr : write) : request :=
  match wr with
  | AddTransaction transactionData =>
      Request (Insert "transactions" transactionData)
  | RemoveTransaction id =>
      Request (Delete "transactions" [("id", VStr id)])
  | UpdateTransaction id updates =>
      Request (UpdateSingle "transactions" updates [("id", VStr id)])
  | BulkRename field oldValue newValue =>
      Request (Update "transactions" (Some {[field := VStr newValue]})
                 [(field, VStr oldValue)])
  end.

(** [fails_with supabase rq r]: the error with which the remote store in
    state [r] fails the call [rq], if it does. *)
Definition fails_with {R} (supabase : ∀ X, rcall X → R → R * outcome X)
    (rq : request) (r : R) : option exn :=
  match rq with Request c => failure (supabase _ c r).2 end.

(** The remote call the drain of the transaction store makes for an entry. *)
Definition replayed (a : Action) : list request :=
  if (a_type a =? "add")%string then
    match a_data a with
    | Some d => [Request (Insert "transactions" (without_id d))]
    | None => []
    end
  else if (a_type a =? "update")%string then
    [Request (Update "transactions" (a_data a) [("id", a_id a)])]
  else if (a_type a =? "delete")%string then
    [Request (Delete "transactions" [("id", a_id a)])]
  else [].

(** A session of writes, each made at the given reading of the clock. *)
Fixpoint session {R} (supabase : ∀ X, rcall X → R → R * outcome X)
    (ws : list (N * write)) (w : World R) : World R :=
  match ws with
  | (now, wr) :: ws' =>
      session supabase ws' (run supabase (issue wr) (set_clock now w)).1
  | [] => w
  end.

(** Three writes made offline after [rent] was loaded, and the network
    coming back. *)
Definition three_writes : list (N * write) :=
  [ (101, AddTransaction lunch);
    (102, BulkRename "category" "Housing" "Home");
    (103, RemoveTransaction "srv-7") ]%N.

Definition three_writes_offline : World Tables :=
  set_onLine true (session server three_writes offline_after_load).

(** A store like [server] behind a network that loses one call: with the
    countdown at [1] the call is rejected and does not reach the store;
    before and after that, calls are served. *)
Definition dropping (X : Type) (c : rcall X) (s : nat * Tables)
    : (nat * Tables) * outcome X :=
  match s.1 with
  | 1 => ((0, s.2), Throws network_down)
  | n => let '(t, o) := server X c s.2 in ((pred n, t), o)
  end.

(** The same client in front of another remote store. *)
Definition with_remote {R R'} (r : R') (w : World R) : World R' :=
  {| storage := storage w; sync_queue := sync_queue w; onLine := onLine w;
     clock := clock w; tx := tx w; dt := dt w; remote := r; trace := trace w |}.

(** The three writes made offline, and a network that comes back but loses
    the second call it is given. *)
Definition three_writes_dropped : World (nat * Tables) :=
  with_remote (2, remote three_writes_offline) three_writes_offline.



(** The writes a caller issues on the category / payment-method store. *)
Inductive name_write :=
| AddName (k : name_list) (name : string)
| RemoveName (k : name_list) (name : string).

Definition issue_name (trim : string → string) (nw : name_write)
    : Prog unit :=
  match nw with
  | AddName k name => add_name trim k name
  | RemoveName ExpenseCategories name => DataProvider.removeExpenseCategory name
  | RemoveName IncomeCategories name => DataProvider.removeIncomeCategory name
  | RemoveName PaymentMethods name => DataProvider.removePaymentMethod name
  end.

(** The remote call such a write makes when online. *)
Definition name_call_of (nw : name_write) : request :=
  match nw with
  | AddName ExpenseCategories name =>
      Request (Insert "categories"
                 {[ "name" := VStr name; "type" := VStr "expense" ]})
  | AddName IncomeCategories name =>
      Request (Insert "categories"
                 {[ "name" := VStr name; "type" := VStr "income" ]})
  | AddName PaymentMethods name =>
      Request (Insert "payment_methods" {[ "name" := VStr name ]})
  | RemoveName ExpenseCategories name =>
      Request (Delete "categories"
                 [("name", VStr name); ("type", VStr "expense")])
  | RemoveName IncomeCategories name =>
      Request (Delete "categories"
                 [("name", VStr name); ("type", VStr "income")])
  | RemoveName PaymentMethods name =>
      Request (Delete "payment_methods" [("name", VStr name)])
  end.

Definition name_fallback_of (nw : name_write) : string :=
  match nw with
  | AddName ExpenseCategories _ => "Failed to add expense category"
  | AddName IncomeCategories _ => "Failed to add income category"
  | AddName PaymentMethods _ => "Failed to add payment method"
  | RemoveName ExpenseCategories _ => "Failed to remove expense category"
  | RemoveName IncomeCategories _ => "Failed to remove income category"
  | RemoveName PaymentMethods _ => "Failed to remove payment method"
  end.

(** [passes_guard nw s]: the write is not stopped by the guard on the name
    (only the adds have one). *)
Definition passes_guard (trim : string → string) (nw : name_write)
    (s : DataState) : Prop :=
  match nw with
  | AddName k name => trim name ≠ "" ∧ VStr name ∉ names_in k s
  | RemoveName _ _ => True
  end.

(** The category "Pets" is added while offline at time 100, and the network
    comes back. *)
Definition pets_added_offline : World Tables :=
  set_onLine true
    (run server (DataProvider.addExpenseCategory trim_utf8 "Pets")
       (mount false 100 empty_tables)).1.

(** ** Vocabulary of the further properties *)

(** [mirrored w]: the transactions in memory are the persisted ones. *)
Definition mirrored {R} (w : World R) : Prop :=
  transactions (tx w) = default [] (storage w !! "transactions").

(** The operations of the transaction store. *)
Inductive operation :=
| Refresh
| Sync
| Write (wr : write).

Definition operate (o : operation) : Prog unit :=
  match o with
  | Refresh => TransactionProvider.refreshTransactions
  | Sync => TransactionProvider.syncQueue
  | Write wr => issue wr
  end.

(** [untagged a]: the entry carries neither of the two entity tags that the
    drain of the category / payment-method store looks for. *)
Definition untagged (a : Action) : Prop :=
  a_entity a ≠ Some "category" ∧ a_entity a ≠ Some "payment_method".

(** The call that sets the position [i] of the category [name]. *)
Definition order_request (type : string) (i : nat) (name : string) : request :=
  Request (Update "categories" (Some {[ "order" := VNum (Z.of_nat i) ]})
             [("name", VStr name); ("type", VStr type)]).

#[global] Instance name_list_eq_dec : EqDecision name_list.
Proof. solve_decision. Defined.

(** The names that a reload of the category / payment-method store reads
    in the cache for each of its three lists. *)
Definition cached_names (k : name_list) (st : gmap string (list obj))
    : list val :=
  match k with
  | ExpenseCategories =>
      DataProvider.names_of_type "expense" (default [] (st !! "categories"))
  | IncomeCategories =>
      DataProvider.names_of_type "income" (default [] (st !! "categories"))
  | PaymentMethods => get "name" <$> default [] (st !! "payment_methods")
  end.

(** The cached entity that an offline remove of [name] from the list [k]
    looks for: the first one with that name (and, for a category, the type
    of the list). *)
Definition cached_entity (k : name_list) (name : string)
    (st : gmap string (list obj)) : option obj :=
  match k with
  | ExpenseCategories =>
      List.find (λ c, strict_eq (get "name" c) (VStr name)
                      && strict_eq (get "type" c) (VStr "expense"))
        (default [] (st !! "categories"))
  | IncomeCategories =>
      List.find (λ c, strict_eq (get "name" c) (VStr name)
                      && strict_eq (get "type" c) (VStr "income"))
        (default [] (st !! "categories"))
  | PaymentMethods =>
      List.find (λ p, strict_eq (get "name" p) (VStr name))
        (default [] (st !! "payment_methods"))
  end.

(** The call that sets the position [i] of the payment method [name]. *)
Definition payment_order_request (i : nat) (name : string) : request :=
  Request (Update "payment_methods" (Some {[ "order" := VNum (Z.of_nat i) ]})
             [("name", VStr name)]).

(** [send supabase calls w]: the remote store receives [calls] one after
    the other, each logged with its answer.  An answer that carries an
    error is an answer like any other; only a call that is rejected ends the
    sequence, with the exception it was rejected with. *)
Fixpoint send {R} (supabase : ∀ X, rcall X → R → R * outcome X)
    (calls : list request) (w : World R) : World R * option exn :=
  match calls with
  | Request c :: calls' =>
      match call supabase c w with
      | (w', Returns _) => send supabase calls' w'
      | (w', Throws e) => (w', Some e)
      end
  | [] => (w, None)
  end.

(** ** The list of transactions ([TransactionList], lines 136-575 of
    [src/supabase-schema.sql]): the filters and the CSV export *)

Module TransactionList.

(** The double quote, the comma and the line feed. *)
Definition quote : ascii := "034"%char.
Definition comma : ascii := ","%char.
Definition newline : ascii := "010"%char.

(** [String(v)] *)
Definition String_ (v : val) : string :=
  match v with
  | VStr s => s
  | VNum n => pretty n
  | VNull => "null"
  | VUndef => "undefined"
  end.

(** [v || ''] on the values of the model: [undefined], [null], the empty
    string and zero are falsy. *)
Definition or_empty (v : val) : val :=
  match v with
  | VUndef | VNull | VStr "" | VNum 0 => VStr ""
  | _ => v
  end.

(** [v.replace(...)] with the global pattern that matches one double quote
    and the replacement made of two: every double quote is doubled. *)
Fixpoint double_quotes (v : string) : string :=
  match v with
  | String c v' =>
      if Ascii.eqb c quote then String quote (String quote (double_quotes v'))
      else String c (double_quotes v')
  | EmptyString => EmptyString
  end.

(** The template of a cell: the value with its quotes doubled, between two
    double quotes. *)
Definition cell (v : string) : string :=
  String quote (double_quotes v +:+ String quote EmptyString).

(** [l.join(sep)] *)
Fixpoint join (sep : ascii) (l : list string) : string :=
  match l with
  | [] => EmptyString
  | [x] => x
  | x :: l' => x +:+ String sep (join sep l')
  end.

Definition header : list string :=
  ["Date"; "Type"; "Amount"; "Currency"; "Category"; "Description";
   "Payment Method"].

(** The row of one transaction, after [row.map(String)]. *)
Definition row_of (t : obj) : list string :=
  String_ <$>
    [get "date" t; get "type" t; get "amount" t; get "currency" t;
     get "category" t; or_empty (get "description" t);
     or_empty (get "payment_method" t)].

(** [csvRows] and [csvContent] of [downloadCSVCombined] (lines 303-328). *)
Definition csvRows (expenses income : list obj) : list (list string) :=
  header :: (row_of <$> (expenses ++ income)).

Definition csvContent (expenses income : list obj) : string :=
  join newline ((λ row, join comma (cell <$> row)) <$> csvRows expenses income).

(** A reader of what [csvContent] writes.  [read_value s] reads a quoted
    value whose opening quote has been read: up to the first quote that is
    not doubled. *)
Fixpoint read_value (s : string) : option (string * string) :=
  match s with
  | String c s' =>
      if Ascii.eqb c quote then
        match s' with
        | String c' s'' =>
            if Ascii.eqb c' quote
            then (λ r, (String quote r.1, r.2)) <$> read_value s''
            else Some (EmptyString, s')
        | EmptyString => Some (EmptyString, EmptyString)
        end
      else (λ r, (String c r.1, r.2)) <$> read_value s'
  | EmptyString => None
  end.

Definition read_cell (s : string) : option (string * string) :=
  match s with
  | String c s' => if Ascii.eqb c quote then read_value s' else None
  | EmptyString => None
  end.

(** Cells separated by commas; [n] bounds the number of cells read. *)
Fixpoint read_row (n : nat) (s : string) : option (list string * string) :=
  match n with
  | O => None
  | S n' =>
      match read_cell s with
      | Some (v, String c rest) =>
          if Ascii.eqb c comma
          then (λ r, (v :: r.1, r.2)) <$> read_row n' rest
          else Some ([v], String c rest)
      | Some (v, EmptyString) => Some ([v], EmptyString)
      | None => None
      end
  end.

(** Rows of at most [m] cells separated by line feeds; [n] bounds the
    number of rows read. *)
Fixpoint read_rows (m n : nat) (s : string) : option (list (list string)) :=
  match n with
  | O => None
  | S n' =>
      match read_row m s with
      | Some (row, String c rest) =>
          if Ascii.eqb c newline then (row ::.) <$> read_rows m n' rest
          else None
      | Some (row, EmptyString) => Some [row]
      | None => None
      end
  end.

Section Filters.

(** [String.prototype.toLowerCase] and [hay.includes(needle)], as the
    engine provides them. *)
Variable toLowerCase : string → string.
Variable includes : string → string → bool.

(** The state of the four filters of one of the two lists. *)
Record Filters := {
  search : string;
  category : string;
  date : string;
  paymentMethod : string
}.

(** The state after "Clear All Filters". *)
Definition cleared : Filters :=
  {| search := ""; category := "all"; date := ""; paymentMethod := "all" |}.

(** What a method call on a value that is not a string throws. *)
Definition not_a_string (property : string) (v : val) : exn :=
  {| instance_of_Error := true;
     message :=
       match v with
       | VUndef => "Cannot read properties of undefined (reading 'toLowerCase')"
       | VNull => "Cannot read properties of null (reading 'toLowerCase')"
       | _ => "t." +:+ property +:+ ".toLowerCase is not a function"
       end |}.

(** [t[property].toLowerCase().includes(needle)] *)
Definition lower_includes (property : string) (t : obj) (needle : string)
    : result bool :=
  match get property t with
  | VStr s => Done (includes (toLowerCase s) needle)
  | v => Thrown (not_a_string property v)
  end.

(** The callback of the second [filter] of [filteredExpenses] and
    [filteredIncome] (lines 236-243 and 250-257). *)
Definition keeps (f : Filters) (t : obj) : result bool :=
  let matchesRest :=
    ((category f =? "all")%string || strict_eq (get "category" t) (VStr (category f)))
    && ((date f =? "")%string || strict_eq (get "date" t) (VStr (date f)))
    && ((paymentMethod f =? "all")%string
        || strict_eq (get "payment_method" t) (VStr (paymentMethod f))) in
  if (search f =? "")%string then Done (true && matchesRest)
  else
    match lower_includes "description" t (toLowerCase (search f)) with
    | Thrown e => Thrown e
    | Done true => Done (true && matchesRest)
    | Done false =>
        match lower_includes "category" t (toLowerCase (search f)) with
        | Thrown e => Thrown e
        | Done matchesSearch => Done (matchesSearch && matchesRest)
        end
    end.

(** [l.filter(p)] with a callback that may throw. *)
Fixpoint filter_with (p : obj → result bool) (l : list obj)
    : result (list obj) :=
  match l with
  | t :: l' =>
      match p t with
      | Thrown e => Thrown e
      | Done b =>
          match filter_with p l' with
          | Thrown e => Thrown e
          | Done r => Done (if b then t :: r else r)
          end
      end
  | [] => Done []
  end.

Definition filtered (type : string) (f : Filters) (transactions : list obj)
    : result (list obj) :=
  filter_with (keeps f) (filter (λ t, get "type" t = VStr type) transactions).

Definition filteredExpenses : Filters → list obj → result (list obj) :=
  filtered "expense".

Definition filteredIncome : Filters → list obj → result (list obj) :=
  filtered "income".

End Filters.

End TransactionList.

(** ASCII instances of the two string methods, to evaluate the filters. *)
Definition ascii_lower (c : ascii) : ascii :=
  let n := nat_of_ascii c in
  if (65 <=? n)%nat && (n <=? 90)%nat then ascii_of_nat (n + 32) else c.

Fixpoint ascii_toLowerCase (s : string) : string :=
  match s with
  | String c s' => String (ascii_lower c) (ascii_toLowerCase s')
  | EmptyString => EmptyString
  end.

Definition substring_of (hay needle : string) : bool :=
  bool_decide (is_Some (String.index 0 needle hay)).

(** Two transactions as the list holds them. *)
Definition coffee : obj :=
  {[ "id" := VStr "srv-11"; "date" := VStr "2024-03-02"; "type" := VStr "expense";
     "amount" := VNum 4; "currency" := VStr "EUR"; "category" := VStr "Food";
     "description" :=
       VStr ("Flat white, "
             +:+ String TransactionList.quote
                   ("Roast" +:+ String TransactionList.quote " bar"));
     "payment_method" := VStr "Cash" ]}.

Definition salary : obj :=
  {[ "id" := VStr "srv-12"; "date" := VStr "2024-03-01"; "type" := VStr "income";
     "amount" := VNum 2000; "currency" := VStr "EUR";
     "category" := VStr "Salary"; "payment_method" := VStr "Bank" ]}.

(** A search for [ROAST] among the expenses of category [Food], and a
    search for [sal]. *)
Definition roast_in_food : TransactionList.Filters :=
  {| TransactionList.search := "ROAST"; TransactionList.category := "Food";
     TransactionList.date := ""; TransactionList.paymentMethod := "all" |}.

Definition search_sal : TransactionList.Filters :=
  {| TransactionList.search := "sal"; TransactionList.category := "all";
     TransactionList.date := ""; TransactionList.paymentMethod := "all" |}.

(** * Properties *)

(** ** The semantics of the program combinators *)

Section Combinators.
Context {R : Type} (supabase : ∀ X, rcall X → R → R * outcome X).

Lemma run_bind {A B} (p : Prog A) (f : A → Prog B) (w : World R) :
  run supabase (p ≫= f) w =
    match run supabase p w with
    | (w', Done a) => run supabase (f a) w'
    | (w', Thrown e) => (w', Thrown e)
    end.
Proof.
  revert w. induction p as [a|e|X o k IH]; intros w; simpl; try reflexivity.
  destruct (exec supabase o w) as [w' x]. apply IH.
Qed.

Lemma run_try_catch {A} (p : Prog A) (h : exn → Prog A) (w : World R) :
  run supabase (try_catch p h) w =
    match run supabase p w with
    | (w', Done a) => (w', Done a)
    | (w', Thrown e) => run supabase (h e) w'
    end.
Proof.
  revert w. induction p as [a|e|X o k IH]; intros w; simpl; try reflexivity.
  destruct (exec supabase o w) as [w' x]. apply IH.
Qed.

Lemma run_try_finally {A} (p : Prog A) (f : Prog unit) (w : World R) :
  run supabase (try_finally p f) w =
    match run supabase p w with
    | (w', r) =>
        match run supabase f w' with
        | (w'', Done _) => (w'', r)
        | (w'', Thrown e) => (w'', Thrown e)
        end
    end.
Proof.
  revert w. induction p as [a|e|X o k IH]; intros w; simpl.
  - change (bind f (λ _, Ret a)) with (f ≫= (λ _, Ret a)).
    rewrite run_bind. by destruct (run supabase f w) as [w' [[]|e]].
  - change (bind f (λ _, Throw e)) with (f ≫= (λ _ : unit, @Throw A e)).
    rewrite run_bind. by destruct (run supabase f w) as [w' [[]|e']].
  - destruct (exec supabase o w) as [w' x]. apply IH.
Qed.


(** Running a program to completion is running it step by step. *)
Lemma run_advance {A} (p : Prog A) (w : World R) :
  run supabase p w = run supabase (advance supabase p w).2 (advance supabase p w).1.
Proof.
  revert w. induction p as [a|e|X o k IH]; intros w; simpl; try reflexivity.
  destruct (awaits o); [reflexivity|].
  destruct (exec supabase o w) as [w' x]. apply IH.
Qed.

Lemma run_resume {A} (p : Prog A) (w : World R) :
  run supabase p w = run supabase (resume supabase p w).2 (resume supabase p w).1.
Proof.
  destruct p as [a|e|X o k]; simpl; try reflexivity.
  destruct (exec supabase o w) as [w' x]. apply run_advance.
Qed.

Lemma run_await {X A} (c : rcall X) (f : reply X → Prog A) (w : World R) :
  run supabase (await c ≫= f) w =
    match call supabase c w with
    | (w', Returns r) => run supabase (f r) w'
    | (w', Throws e) => (w', Thrown e)
    end.
Proof. simpl. by destruct (call supabase c w) as [w' [r|e]]. Qed.

Lemma run_read {A} (f : DataState → Prog A) (w : World R) :
  run supabase (perform DataRead ≫= f) w = run supabase (f (dt w)) w.
Proof. reflexivity. Qed.

Lemma step_lone (p : Prog unit) (w : World R) :
  step supabase 0 ([p], w)
    = ([(resume supabase p w).2], (resume supabase p w).1).
Proof. unfold step. simpl. by destruct (resume supabase p w). Qed.

(** A pending call that is alone in the pool, resumed until it has
    finished, ends in the world that [run] computes. *)
Lemma schedule_lone (n : nat) (p : Prog unit) (w : World R) :
  ∃ p' w', schedule supabase (replicate n 0) ([p], w) = ([p'], w') ∧
    run supabase p' w' = run supabase p w.
Proof.
  revert p w. induction n as [|n IH]; intros p w; [by eexists _, _|].
  change (schedule supabase (replicate (S n) 0) ([p], w))
    with (schedule supabase (replicate n 0) (step supabase 0 ([p], w))).
  rewrite step_lone.
  destruct (IH (resume supabase p w).2 (resume supabase p w).1)
    as (p' & w' & Hsched & Hrun).
  exists p', w'. split; [exact Hsched|]. by rewrite Hrun, <- run_resume.
Qed.

Lemma finished_run {A} (p : Prog A) (w : World R) :
  finished p = true → (run supabase p w).1 = w.
Proof. by destruct p. Qed.

Lemma lone_call_agrees_with_run (n : nat) (p : Prog unit) (w : World R) :
  forallb finished (schedule supabase (replicate n 0) (spawn supabase p ([], w))).1
    = true →
  (schedule supabase (replicate n 0) (spawn supabase p ([], w))).2
    = (run supabase p w).1.
Proof.
  unfold spawn. cbn [fst snd app].
  pose proof (run_advance p w) as Hadv.
  destruct (advance supabase p w) as [w0 p0]. cbn [fst snd] in Hadv.
  destruct (schedule_lone n p0 w0) as (p' & w' & -> & Hrun).
  cbn [fst snd forallb]. rewrite andb_true_r. intros Hfin.
  by rewrite Hadv, <- Hrun, finished_run.
Qed.

End Combinators.

(** ** The category / payment-method store *)

Section DataStore.
Context {R : Type} (supabase : ∀ X, rcall X → R → R * outcome X).
Context (trim : string → string).

(** C10. [addExpenseCategory], [addIncomeCategory] and [addPaymentMethod],
    called with a name that is empty after trimming or that is already in
    the current list, do nothing at all: the whole world is unchanged (no
    remote call, no write to the local store or to the queue, [isLoading]
    and [error] as before) and the call returns normally. *)
Theorem add_blank_or_known_name_is_noop (k : name_list) (name : string)
    (w : World R) :
  trim name = "" ∨ VStr name ∈ names_in k (dt w) →
  run supabase (add_name trim k name) w = (w, Done ()).
Proof.
  intros Hguard.
  assert ((trim name =? "")%string || bool_decide (VStr name ∈ names_in k (dt w))
          = true) as Hcond.
  { destruct Hguard as [->|Hin]; [done|].
    rewrite (bool_decide_eq_true_2 _ Hin). apply orb_true_r. }
  destruct k; simpl in Hcond; simpl;
    unfold DataProvider.addExpenseCategory, DataProvider.addIncomeCategory,
      DataProvider.addCategory, DataProvider.addPaymentMethod; simpl;
    by rewrite Hcond.
Qed.

End DataStore.

Lemma add_blank_or_known_name_is_noop_witness :
  run server (add_name trim_utf8 PaymentMethods (" " +:+ nbsp +:+ " "))
    (mount true 0 empty_tables)
  = (mount true 0 empty_tables, Done ()).
Proof.
  apply (add_blank_or_known_name_is_noop server trim_utf8 PaymentMethods
           (" " +:+ nbsp +:+ " ")).
  left. vm_compute. reflexivity.
Defined.

Section DataStoreWrites.
Context {R : Type} (supabase : ∀ X, rcall X → R → R * outcome X).
Context (trim : string → string).
Import DataProvider.

Lemma run_data_set {A} (f : DataState → DataState) (p : Prog A) (w : World R) :
  run supabase (set f;; p) w = run supabase p (set_dt f w).
Proof. reflexivity. Qed.

(** The writes of the category / payment-method store, issued online with a
    failing remote call: the local store, the queue and the lists of names
    are as before, and the error is recorded in [error].  Unlike those of
    the transaction store, these functions do not throw it again. *)
Lemma failed_online_name_write_keeps_local_store (nw : name_write) (e : exn)
    (w : World R) :
  onLine w = true →
  passes_guard trim nw (dt w) →
  fails_with supabase (name_call_of nw) (remote w) = Some e →
  ∃ w', run supabase (issue_name trim nw) w = (w', Done ()) ∧
    storage w' = storage w ∧
    sync_queue w' = sync_queue w ∧
    (∀ k, names_in k (dt w') = names_in k (dt w)) ∧
    dt_error (dt w') = Some (error_message e (name_fallback_of nw)) ∧
    request_of <$> trace w' = (request_of <$> trace w) ++ [name_call_of nw].
Proof.
  intros Hon Hguard Hfail.
  assert (∀ name k,
            trim name ≠ "" ∧ VStr name ∉ names_in k (dt w) →
            (trim name =? "")%string || bool_decide (VStr name ∈ names_in k (dt w))
            = false) as Hcond.
  { intros name k [Hblank Hnew]. apply orb_false_intro.
    - by apply String.eqb_neq.
    - by apply bool_decide_eq_false_2. }
  destruct nw as [k name|k name].
  - specialize (Hcond name k Hguard).
    destruct k; simpl in Hfail, Hcond;
      unfold issue_name, add_name, addExpenseCategory, addIncomeCategory,
        addCategory, addPaymentMethod;
      rewrite run_read, Hcond, !run_data_set, run_try_finally, run_try_catch;
      cbn -[await]; rewrite Hon; cbn -[await];
      rewrite run_await; unfold call; cbn [set_dt dt remote];
      match goal with
      | |- context [supabase ?X ?c (remote w)] =>
          destruct (supabase X c (remote w)) as [r' [[x|e']|e']] eqn:Hc
      end; simpl in Hfail; simplify_eq; cbn;
      (eexists; split; [reflexivity|]; cbn;
       split_and!; [done|done|by intros []|done|by rewrite fmap_app]).
  - destruct k; simpl in Hfail;
      unfold issue_name, removeExpenseCategory, removeIncomeCategory,
        removeCategory, removePaymentMethod;
      rewrite !run_data_set, run_try_finally, run_try_catch;
      cbn -[await]; rewrite Hon; cbn -[await];
      rewrite run_await; unfold call; cbn [set_dt dt remote];
      match goal with
      | |- context [supabase ?X ?c (remote w)] =>
          destruct (supabase X c (remote w)) as [r' [[x|e']|e']] eqn:Hc
      end; simpl in Hfail; simplify_eq; cbn;
      (eexists; split; [reflexivity|]; cbn;
       split_and!; [done|done|by intros []|done|by rewrite fmap_app]).
Qed.

(** What [addExpenseCategory] leaves in the queue when offline: an entry of
    type ['add'] tagged with the entity ['category']. *)
Lemma offline_category_add_enqueues (name : string) (w : World R) :
  onLine w = false →
  trim name ≠ "" →
  VStr name ∉ expenseCategories (dt w) →
  sync_queue (run supabase (addExpenseCategory trim name) w).1 =
    Some (default [] (sync_queue w) ++
          [entity_add_action "category"
             {[ "id" := VStr ("offline-cat-" +:+ pretty (clock w));
                "name" := VStr name; "type" := VStr "expense" ]}]).
Proof.
  intros Hoff Hblank Hnew.
  unfold addExpenseCategory, addCategory. rewrite run_read.
  rewrite (proj2 (String.eqb_neq _ _) Hblank), (bool_decide_eq_false_2 _ Hnew).
  cbn [orb]. rewrite !run_data_set, run_try_finally, run_try_catch.
  cbn. rewrite Hoff. cbn. done.
Qed.

End DataStoreWrites.

(** ** The drain of the transaction store, entry by entry *)

Section Reconciler.
Context {R : Type} (supabase : ∀ X, rcall X → R → R * outcome X).
Import TransactionProvider.





(** C4, as the code has it.  A [delete] entry always makes the drain send a
    remote delete filtered on the entry's [id], whether that [id] is a
    temporary one or not; the drain changes nothing in the local store for
    such an entry. *)
Theorem delete_entry_always_sent (action : Action) (localTx : list obj)
    (w : World R) :
  a_type action = "delete" →
  run supabase (syncAction localTx action) w =
    match call supabase (Delete "transactions" [("id", a_id action)]) w with
    | (w', Returns _) => (w', Done localTx)
    | (w', Throws e) => (w', Thrown e)
    end.
Proof.
  intros Htype. unfold syncAction. rewrite Htype.
  cbn [String.eqb Ascii.eqb Bool.eqb]. rewrite run_await. unfold call.
  destruct (supabase _ (Delete "transactions" [("id", a_id action)]) (remote w))
    as [r' [r|e]]; reflexivity.
Qed.


End Reconciler.


Lemma delete_entry_always_sent_witness :
  is_temporary (VStr "offline-100") = true ∧
  run server (TransactionProvider.syncAction [] (delete_action (VStr "offline-100")))
      (mount true 100 empty_tables) =
    match call server (Delete "transactions" [("id", VStr "offline-100")])
            (mount true 100 empty_tables) with
    | (w', Returns _) => (w', Done [])
    | (w', Throws e) => (w', Thrown e)
    end.
Proof.
  split; [reflexivity|].
  apply (delete_entry_always_sent server (delete_action (VStr "offline-100")));
    reflexivity.
Defined.

(** C4, as stated, fails in scenario B: the entity added under the
    temporary identifier [offline-100] and deleted before the network came
    back is inserted remotely, and a remote delete on [offline-100] is sent
    all the same. *)
Lemma temporary_delete_reaches_remote :
  a_type <$> default [] (sync_queue added_then_deleted) = ["add"; "delete"] ∧
  is_temporary (VStr "offline-100") = true ∧
  request_of <$> trace (run server TransactionProvider.syncQueue added_then_deleted).1 =
    [ Request (Insert "transactions" lunch);
      Request (Delete "transactions" [("id", VStr "offline-100")]);
      Request (SelectOrder "transactions" "date" false) ].
Proof. vm_compute. done. Qed.

(** ** The whole drain *)

Section Drain.
Context {R : Type} (supabase : ∀ X, rcall X → R → R * outcome X).
Import TransactionProvider.

Lemma run_set {A} (f : TxState → TxState) (p : Prog A) (w : World R) :
  run supabase (set f;; p) w = run supabase p (set_tx f w).
Proof. reflexivity. Qed.

Lemma refreshTransactions_returns (w : World R) :
  (run supabase refreshTransactions w).2 = Done ().
Proof.
  unfold refreshTransactions. rewrite !run_set, run_try_finally, run_try_catch.
  cbn -[await]. destruct (onLine w); cbn -[await]; [|done].
  rewrite run_await. by destruct (call supabase _ _) as [w' [[data|err]|e]].
Qed.

(** [syncQueue] in terms of its parts: the flag is raised, the queue is
    drained, and only if the drain did not throw the queue is cleared and
    the transactions are refreshed; the flag is lowered in both cases, and
    nothing is thrown to the caller. *)
Lemma run_syncQueue (w : World R) :
  run supabase syncQueue w =
    match run supabase drainQueue (set_tx (setIsSyncing true) w) with
    | (w1, Done _) =>
        (set_tx (setIsSyncing false)
           (run supabase refreshTransactions (set_sync_queue (Some []) w1)).1,
         Done ())
    | (w1, Thrown _) => (set_tx (setIsSyncing false) w1, Done ())
    end.
Proof.
  unfold syncQueue. rewrite run_set, run_try_finally, run_try_catch, run_bind.
  destruct (run supabase drainQueue _) as [w1 [l|e]]; [|done].
  change (clearQueue;; refreshTransactions)
    with (Do (LfSetQueue []) (λ _, refreshTransactions)).
  cbn [run exec].
  pose proof (refreshTransactions_returns (set_sync_queue (Some []) w1)) as Hr.
  destruct (run supabase refreshTransactions _) as [w2 r]. simpl in Hr.
  by subst r.
Qed.

(** C7, as the code has it.  [syncQueue] never reads [isSyncing]: a drain
    triggered while the flag is raised is started like any other (it is
    pending in the pool, suspended at its first read), and run to completion
    it does exactly what a drain triggered with the flag lowered does. *)
Theorem trigger_ignores_isSyncing (b : bool) (ps : pool) (w : World R) :
  run supabase syncQueue (set_tx (setIsSyncing b) w) = run supabase syncQueue w ∧
  spawn supabase syncQueue (ps, set_tx (setIsSyncing b) w)
    = spawn supabase syncQueue (ps, w) ∧
  ∃ p, (spawn supabase syncQueue (ps, w)).1 = ps ++ [p] ∧ finished p = false.
Proof.
  split; [reflexivity|]. split; [reflexivity|].
  eexists. split; reflexivity.
Qed.

End Drain.

(** C7, as stated, fails when the network comes back after the offline add
    of scenario A.  The listener starts a drain, which raises [isSyncing]
    and is suspended; the effect then starts a second drain.  With the first
    drain still suspended at its first read, three steps of the second one
    send the insert; and when both have run to the end, the one queued
    entry has been inserted twice. *)
Lemma second_trigger_drains_again :
  a_type <$> default [] (sync_queue back_online.2) = ["add"] ∧
  tx_isSyncing (tx back_online.2) = true ∧
  finished <$> back_online.1 = [false] ∧
  finished <$> back_online_rendered.1 = [false; false] ∧
  request_of <$> trace (schedule server [1; 1; 1] back_online_rendered).2
    = [Request (Insert "transactions" lunch)] ∧
  (schedule server [1; 1; 1] back_online_rendered).1 !! 0
    = back_online_rendered.1 !! 0 ∧
  finished <$> (schedule server [0;1;0;1;0;1;0;1;0;1;0;1] back_online_rendered).1
    = [true; true] ∧
  inserts (trace (schedule server [0;1;0;1;0;1;0;1;0;1;0;1] back_online_rendered).2)
    = 2.
Proof. split_and!; reflexivity. Qed.

(** ** Reads and writes of the transaction store *)

Section SyncEngine.
Context {R : Type} (supabase : ∀ X, rcall X → R → R * outcome X).
Import TransactionProvider.

(** C8, as the code has it.  A read made while offline shows the persisted
    snapshot as it is, same entities in the same order, with no filtering or
    ordering on the client; it calls nothing remote and leaves the
    persisted copy alone. *)
Theorem offline_read_is_stored_snapshot (w : World R) :
  onLine w = false →
  transactions (tx (run supabase refreshTransactions w).1)
    = default [] (storage w !! "transactions") ∧
  storage (run supabase refreshTransactions w).1 = storage w ∧
  trace (run supabase refreshTransactions w).1 = trace w ∧
  (run supabase refreshTransactions w).2 = Done ().
Proof.
  intros Hoff. unfold refreshTransactions.
  rewrite !run_set, run_try_finally, run_try_catch.
  cbn -[await]. rewrite Hoff. cbn. done.
Qed.

(** C6.  A write issued while online whose remote call fails (an error in
    the reply, or a rejected promise) throws that error to its caller and
    records its message in [error]; the persisted collections, the queue
    and the transactions in memory are as before, and the remote store has
    received that one call. *)
Theorem failed_online_write_keeps_local_store (wr : write) (e : exn)
    (w : World R) :
  onLine w = true →
  fails_with supabase (remote_call_of wr) (remote w) = Some e →
  ∃ w', run supabase (issue wr) w = (w', Thrown e) ∧
    storage w' = storage w ∧
    sync_queue w' = sync_queue w ∧
    transactions (tx w') = transactions (tx w) ∧
    tx_error (tx w') = Some (error_message e (fallback_of wr)) ∧
    request_of <$> trace w' = (request_of <$> trace w) ++ [remote_call_of wr].
Proof.
  intros Hon Hfail.
  destruct wr as [d|id|id u|f o n]; simpl in Hfail; unfold issue;
    [| |rewrite run_bind|];
    unfold addTransaction, removeTransaction, updateTransaction,
      bulkRenameInTransactions;
    rewrite !run_set, run_try_finally, run_try_catch;
    cbn -[await]; rewrite Hon; cbn -[await]; rewrite run_await; unfold call;
    cbn [set_tx tx remote];
    match goal with
    | |- context [supabase ?X ?c (remote w)] =>
        destruct (supabase X c (remote w)) as [r' [[x|e']|e']] eqn:Hc
    end; simpl in Hfail; simplify_eq; cbn;
    (eexists; split; [reflexivity|]; cbn;
     by rewrite fmap_app).
Qed.


End SyncEngine.

Lemma offline_read_is_stored_snapshot_witness :
  transactions (tx (run server TransactionProvider.refreshTransactions
                      offline_after_load).1)
    = default [] (storage offline_after_load !! "transactions") ∧
  storage (run server TransactionProvider.refreshTransactions
             offline_after_load).1 = storage offline_after_load ∧
  trace (run server TransactionProvider.refreshTransactions
           offline_after_load).1 = trace offline_after_load ∧
  (run server TransactionProvider.refreshTransactions offline_after_load).2
    = Done ().
Proof.
  apply (offline_read_is_stored_snapshot server offline_after_load).
  reflexivity.
Defined.

Lemma failed_online_write_keeps_local_store_witness :
  ∃ w', run (refusing refused) (issue (AddTransaction lunch))
          (mount true 100 ()) = (w', Thrown refused) ∧
    storage w' = storage (mount true 100 ()) ∧
    sync_queue w' = sync_queue (mount true 100 ()) ∧
    transactions (tx w') = transactions (tx (mount true 100 ())) ∧
    tx_error (tx w')
      = Some (error_message refused (fallback_of (AddTransaction lunch))) ∧
    request_of <$> trace w'
      = (request_of <$> trace (mount true 100 ()))
          ++ [remote_call_of (AddTransaction lunch)].
Proof.
  apply (failed_online_write_keeps_local_store (refusing refused)
           (AddTransaction lunch) refused (mount true 100 ()));
    reflexivity.
Defined.

(** C8, as stated, fails after an offline add: the entity dated
    2024-01-05 is put in front of the one dated 2024-02-01, and an offline
    read returns them in that order, which is not by date descending; the
    remote ordering of the same rows is the other way round. *)
Lemma offline_read_not_by_date :
  let w := (run server (TransactionProvider.addTransaction lunch)
              offline_after_load).1 in
  let shown :=
    transactions (tx (run server TransactionProvider.refreshTransactions w).1) in
  onLine w = false ∧
  get "date" <$> shown = [VStr "2024-01-05"; VStr "2024-02-01"] ∧
  ordered_by "date" false shown = false ∧
  get "date" <$> order_by "date" false shown
    = [VStr "2024-02-01"; VStr "2024-01-05"].
Proof. vm_compute. done. Qed.

(** ** What survives a drain *)

Section Queue.
Context {R : Type} (supabase : ∀ X, rcall X → R → R * outcome X).
Import TransactionProvider.

(** The loop of the drain leaves the queue, the network state and the clock
    as they are. *)
Lemma syncAction_frame (action : Action) (localTx : list obj) (w : World R) :
  sync_queue (run supabase (syncAction localTx action) w).1 = sync_queue w ∧
  onLine (run supabase (syncAction localTx action) w).1 = onLine w.
Proof.
  unfold syncAction.
  destruct (a_type action =? "add")%string;
    [destruct (a_data action) as [d|]; [|done]|
     destruct (a_type action =? "update")%string;
       [|destruct (a_type action =? "delete")%string; [|done]]];
    rewrite run_await; unfold call;
    destruct (supabase _ _ (remote w)) as [r' [[x|e']|e']]; done.
Qed.

Lemma for_of_syncAction_frame (queue : list Action) (localTx : list obj)
    (w : World R) :
  sync_queue (run supabase (for_of queue syncAction localTx) w).1 = sync_queue w ∧
  onLine (run supabase (for_of queue syncAction localTx) w).1 = onLine w.
Proof.
  revert localTx w. induction queue as [|a queue IH]; intros localTx w; [done|].
  simpl. rewrite run_bind.
  destruct (syncAction_frame a localTx w) as [Hq Hon].
  destruct (run supabase (syncAction localTx a) w) as [w' [l|e]]; [|done].
  destruct (IH l w') as [Hq' Hon']. simpl in Hq, Hon. by rewrite Hq', Hon'.
Qed.

Lemma drainQueue_frame (w : World R) :
  sync_queue (run supabase drainQueue w).1 = sync_queue w ∧
  onLine (run supabase drainQueue w).1 = onLine w.
Proof. apply for_of_syncAction_frame. Qed.

Lemma refreshTransactions_frame (w : World R) :
  sync_queue (run supabase refreshTransactions w).1 = sync_queue w.
Proof.
  unfold refreshTransactions. rewrite !run_set, run_try_finally, run_try_catch.
  cbn -[await]. destruct (onLine w); cbn -[await]; [|done].
  rewrite run_await. unfold call.
  by destruct (supabase _ _ _) as [r' [[data|err]|e]].
Qed.

(** The part of C1 that the code keeps: a drain that throws leaves the whole
    queue in place. *)
Lemma thrown_drain_keeps_queue (w : World R) (w1 : World R) (e : exn) :
  run supabase drainQueue (set_tx (setIsSyncing true) w) = (w1, Thrown e) →
  sync_queue (run supabase syncQueue w).1 = sync_queue w.
Proof.
  intros Hdrain. rewrite run_syncQueue, Hdrain. simpl.
  pose proof (drainQueue_frame (set_tx (setIsSyncing true) w)) as [Hq _].
  by rewrite Hdrain in Hq.
Qed.

(** A drain that does not throw empties the queue, whatever the replies of
    the remote store were. *)
Lemma returned_drain_clears_queue (w : World R) (w1 : World R) (l : list obj) :
  run supabase drainQueue (set_tx (setIsSyncing true) w) = (w1, Done l) →
  sync_queue (run supabase syncQueue w).1 = Some [].
Proof.
  intros Hdrain. rewrite run_syncQueue, Hdrain.
  change (sync_queue (run supabase refreshTransactions
                        (set_sync_queue (Some []) w1)).1 = Some []).
  by rewrite refreshTransactions_frame.
Qed.

(** A write made while offline puts one entry at the end of the queue. *)
Lemma offline_write_enqueues (wr : write) (w : World R) :
  onLine w = false →
  sync_queue (run supabase (issue wr) w).1
    = Some (default [] (sync_queue w) ++ [entry_of (clock w) wr]) ∧
  onLine (run supabase (issue wr) w).1 = false ∧
  trace (run supabase (issue wr) w).1 = trace w.
Proof.
  intros Hoff.
  destruct wr as [d|id|id u|f o n]; unfold issue; [| |rewrite run_bind|];
    unfold addTransaction, removeTransaction, updateTransaction,
      bulkRenameInTransactions;
    rewrite !run_set, run_try_finally, run_try_catch;
    cbn; rewrite Hoff; cbn; done.
Qed.

(** The queue after a session of offline writes: the entries of the writes,
    in the order of the writes, after what the queue held. *)
Lemma offline_session_queue (ws : list (N * write)) (w : World R) :
  onLine w = false →
  default [] (sync_queue (session supabase ws w))
    = default [] (sync_queue w) ++ ((λ tw, entry_of tw.1 tw.2) <$> ws) ∧
  trace (session supabase ws w) = trace w.
Proof.
  revert w. induction ws as [|[now wr] ws IH]; intros w Hoff; simpl.
  - by rewrite app_nil_r.
  - destruct (offline_write_enqueues wr (set_clock now w) Hoff)
      as (Hq & Hoff' & Htr).
    destruct (IH _ Hoff') as [IHq IHtr].
    rewrite IHq, IHtr, Hq, Htr. simpl. by rewrite <- app_assoc.
Qed.

(** The calls of a drain that does not throw: those of the entries, in the
    order of the queue. *)
Lemma syncAction_requests (action : Action) (localTx : list obj) (w : World R) :
  is_Some (a_data action) ∨ a_type action ≠ "add" →
  request_of <$> trace (run supabase (syncAction localTx action) w).1
    = (request_of <$> trace w) ++ replayed action.
Proof.
  intros Hdata. unfold syncAction, replayed.
  destruct (a_type action =? "add")%string eqn:Hadd.
  - destruct (a_data action) as [d|].
    + rewrite run_await. unfold call.
      destruct (supabase _ _ (remote w)) as [r' [[x|e']|e']]; cbn;
        by rewrite fmap_app.
    + apply String.eqb_eq in Hadd. destruct Hdata as [[? [=]]|?]; done.
  - destruct (a_type action =? "update")%string;
      [|destruct (a_type action =? "delete")%string;
        [|by rewrite app_nil_r]];
      rewrite run_await; unfold call;
      destruct (supabase _ _ (remote w)) as [r' [[x|e']|e']]; cbn;
      by rewrite fmap_app.
Qed.

Lemma for_of_syncAction_requests (queue : list Action) (localTx l' : list obj)
    (w w' : World R) :
  run supabase (for_of queue syncAction localTx) w = (w', Done l') →
  request_of <$> trace w' = (request_of <$> trace w) ++ (queue ≫= replayed).
Proof.
  revert localTx w. induction queue as [|a queue IH]; intros localTx w; simpl.
  - intros [= <- _]. by rewrite app_nil_r.
  - rewrite run_bind.
    destruct (run supabase (syncAction localTx a) w) as [w1 [l1|e]] eqn:Hstep;
      [|done].
    intros Hrest. rewrite (IH _ _ Hrest).
    assert (is_Some (a_data a) ∨ a_type a ≠ "add") as Hdata.
    { destruct (a_data a) as [d|] eqn:Hd; [left; eauto|right].
      intros Hadd. unfold syncAction in Hstep.
      by rewrite Hadd, Hd in Hstep. }
    pose proof (syncAction_requests a localTx w Hdata) as Hreq.
    rewrite Hstep in Hreq. simpl in Hreq. by rewrite Hreq, <- app_assoc.
Qed.

End Queue.

(** C1 at a failing input.  The delete of [srv-7] queued while offline is
    replayed against a remote store that refuses it: the client resolves
    with an error, nothing is thrown, and the drain goes on to clear the
    queue.  The entry is gone although it was never applied remotely.  The
    drain of the category / payment-method store does the same. *)
Lemma refused_replay_clears_queue :
  sync_queue deleted_offline = Some [delete_action (VStr "srv-7")] ∧
  trace (run (refusing refused) TransactionProvider.syncQueue deleted_offline).1
    = [ Ev (Delete "transactions" [("id", VStr "srv-7")])
           (Returns (Error refused));
        Ev (SelectOrder "transactions" "date" false) (Returns (Error refused)) ] ∧
  sync_queue (run (refusing refused) TransactionProvider.syncQueue
                deleted_offline).1 = Some [] ∧
  sync_queue category_deleted_offline
    = Some [entity_delete_action "category" (VStr "srv-2")] ∧
  sync_queue (run (refusing refused) DataProvider.syncQueue
                category_deleted_offline).1 = Some [].
Proof. vm_compute. done. Qed.

(** C2 at a failing input (scenario C).  The rename of "Food" to "Dining"
    made offline is queued, but the drain sends no update for it: the only
    call the remote store receives is the select of the refresh.  The queue
    is cleared, the remote row keeps "Food", and the refresh brings "Food"
    back into the local store. *)
Lemma bulk_rename_entry_is_dropped :
  sync_queue renamed_offline
    = Some [bulkRename_action "category" "Food" "Dining"] ∧
  get "category" <$> default [] (storage renamed_offline !! "transactions")
    = [VStr "Dining"] ∧
  request_of <$> trace (run server TransactionProvider.syncQueue renamed_offline).1
    = (request_of <$> trace renamed_offline)
      ++ [Request (SelectOrder "transactions" "date" false)] ∧
  sync_queue (run server TransactionProvider.syncQueue renamed_offline).1
    = Some [] ∧
  get "category"
    <$> table_of (remote (run server TransactionProvider.syncQueue
                            renamed_offline).1) "transactions"
    = [VStr "Food"] ∧
  get "category"
    <$> default [] (storage (run server TransactionProvider.syncQueue
                               renamed_offline).1 !! "transactions")
    = [VStr "Food"].
Proof. vm_compute. done. Qed.

(** C5 at a failing input.  Three writes made offline are queued in their
    order, but the drain sends the calls of the first and of the third
    only: the rename in between has no call. *)
Lemma drain_skips_queued_rename :
  a_type <$> default [] (sync_queue three_writes_offline)
    = ["add"; "bulkRename"; "delete"] ∧
  request_of
    <$> drop (length (trace three_writes_offline))
          (trace (run server TransactionProvider.syncQueue three_writes_offline).1)
    = [ Request (Insert "transactions" lunch);
        Request (Delete "transactions" [("id", VStr "srv-7")]);
        Request (SelectOrder "transactions" "date" false) ].
Proof. vm_compute. done. Qed.

(** ** Identifier remapping *)

Section Remapping.
Context {R : Type} (supabase : ∀ X, rcall X → R → R * outcome X).
Import TransactionProvider.








End Remapping.



(** The same with one drain at a time.  The first drain inserts the entity
    and then loses the delete that follows in the queue: it throws, and the
    whole queue is kept.  The second drain replays the queue from the start
    and is successful: the entity is inserted again and the Local Store,
    which held it under [srv-8], now holds it under [srv-9] as well. *)
Lemma retry_leaves_entity_twice :
  a_type
    <$> default []
          (sync_queue (run dropping TransactionProvider.syncQueue
                         three_writes_dropped).1)
    = ["add"; "bulkRename"; "delete"] ∧
  get "id"
    <$> default []
          (storage (run dropping TransactionProvider.syncQueue
                      three_writes_dropped).1 !! "transactions")
    = [VStr "srv-8"] ∧
  sync_queue
    (run dropping TransactionProvider.syncQueue
       (run dropping TransactionProvider.syncQueue three_writes_dropped).1).1
    = Some [] ∧
  get "id"
    <$> default []
          (storage
             (run dropping TransactionProvider.syncQueue
                (run dropping TransactionProvider.syncQueue
                   three_writes_dropped).1).1 !! "transactions")
    = [VStr "srv-8"; VStr "srv-9"] ∧
  without_id
    <$> default []
          (storage
             (run dropping TransactionProvider.syncQueue
                (run dropping TransactionProvider.syncQueue
                   three_writes_dropped).1).1 !! "transactions")
    = [lunch; lunch].
Proof. split_and!; reflexivity. Qed.

(** ** Further scenarios *)

(** The entry that [addExpenseCategory] leaves in the shared queue is
    replayed by the drain of the transaction store as an insert into
    [transactions], and the returned row enters the list of transactions. *)
Lemma category_add_replayed_as_transaction :
  sync_queue pets_added_offline = Some [entity_add_action "category" pets] ∧
  request_of
    <$> trace (run server TransactionProvider.syncQueue pets_added_offline).1
    = [ Request (Insert "transactions"
                   {[ "name" := VStr "Pets"; "type" := VStr "expense" ]});
        Request (SelectOrder "transactions" "date" false) ] ∧
  get "name"
    <$> transactions
          (tx (run server TransactionProvider.syncQueue pets_added_offline).1)
    = [VStr "Pets"].
Proof. vm_compute. done. Qed.

(** Scenario A from end to end: one insert, the temporary entity replaced
    by the row of the server, the queue empty. *)
Lemma offline_add_then_reconnect :
  get "id" <$> default [] (storage added_offline !! "transactions")
    = [VStr "offline-100"] ∧
  a_type <$> default [] (sync_queue added_offline) = ["add"] ∧
  request_of
    <$> trace (run server TransactionProvider.syncQueue
                 (set_onLine true added_offline)).1
    = [ Request (Insert "transactions" lunch);
        Request (SelectOrder "transactions" "date" false) ] ∧
  storage (run server TransactionProvider.syncQueue
             (set_onLine true added_offline)).1 !! "transactions"
    = Some [<["id" := VStr "srv-0"]> lunch] ∧
  sync_queue (run server TransactionProvider.syncQueue
                (set_onLine true added_offline)).1 = Some [].
Proof. split_and!; reflexivity. Qed.

(** A drain interrupted by a rejected promise keeps the queue. *)
Lemma unreachable_replay_keeps_queue :
  sync_queue (run (unreachable network_down) TransactionProvider.syncQueue
                deleted_offline).1
    = Some [delete_action (VStr "srv-7")].
Proof. vm_compute. done. Qed.

Lemma trim_utf8_examples :
  trim_utf8 "  Pets  " = "Pets" ∧ trim_utf8 "   " = "" ∧
  trim_utf8 "a b" = "a b" ∧ trim_utf8 nbsp = "" ∧
  trim_utf8 (nbsp +:+ "Pets" +:+ bytes [9; 226; 128; 168]) = "Pets" ∧
  trim_utf8 (bytes [195; 160]) = bytes [195; 160].
Proof. vm_compute. done. Qed.

(** * Further properties of the code *)

(** ** The queue of [utils.ts] *)

Section SyncQueue.
Context {R : Type} (supabase : ∀ X, rcall X → R → R * outcome X).

Lemma run_addToQueue {A} (a : Action) (p : Prog A) (w : World R) :
  run supabase (addToQueue a;; p) w =
    run supabase p (set_sync_queue (Some (default [] (sync_queue w) ++ [a])) w).
Proof. reflexivity. Qed.

(** X1.  The queue is first in, first out: after the entries [l] have been
    put in the queue one by one with [addToQueue], [getQueue] returns what
    the queue held before (nothing if the key was never written) followed
    by [l] in the same order; the entity collections, the remote store and
    the log of calls are untouched. *)
Theorem queue_is_fifo (l : list Action) (w : World R) :
  ∃ w', run supabase (for_of l (λ _ a, addToQueue a) ();; getQueue) w
          = (w', Done (default [] (sync_queue w) ++ l)) ∧
    storage w' = storage w ∧ remote w' = remote w ∧ trace w' = trace w ∧
    tx w' = tx w ∧ dt w' = dt w.
Proof.
  revert w. induction l as [|a l IH]; intros w.
  - exists w. by rewrite app_nil_r.
  - destruct (IH (set_sync_queue (Some (default [] (sync_queue w) ++ [a])) w))
      as (w' & Hrun & Hrest).
    exists w'. split; [|exact Hrest].
    change (run supabase
              ((addToQueue a;; for_of l (λ _ a, addToQueue a) ());; getQueue) w
            = (w', Done (default [] (sync_queue w) ++ a :: l))).
    rewrite run_bind, run_addToQueue. rewrite run_bind in Hrun.
    destruct (run supabase (for_of l _ ()) _) as [w1 [[]|e]]; [|done].
    rewrite Hrun. cbn. by rewrite <- app_assoc.
Qed.

End SyncQueue.

(** ** The transaction store as a whole *)

Section TransactionStore.
Context {R : Type} (supabase : ∀ X, rcall X → R → R * outcome X).
Import TransactionProvider.

(** X2.  [syncQueue] never throws to its caller and always lowers
    [isSyncing], whatever the remote store does; and it treats the queue as
    a whole: when the drain threw the queue is exactly as it was, otherwise
    it is empty.  No entry is ever removed singly. *)
Theorem syncQueue_all_or_nothing (w : World R) :
  (run supabase syncQueue w).2 = Done () ∧
  tx_isSyncing (tx (run supabase syncQueue w).1) = false ∧
  sync_queue (run supabase syncQueue w).1 =
    match (run supabase drainQueue (set_tx (setIsSyncing true) w)).2 with
    | Done _ => Some []
    | Thrown _ => sync_queue w
    end.
Proof.
  rewrite run_syncQueue.
  pose proof (drainQueue_frame supabase (set_tx (setIsSyncing true) w)) as [Hq _].
  destruct (run supabase drainQueue _) as [w1 [l|e]]; cbn [fst snd] in *.
  - split; [done|]. split; [done|].
    change (sync_queue (run supabase refreshTransactions
                          (set_sync_queue (Some []) w1)).1 = Some []).
    by rewrite refreshTransactions_frame.
  - done.
Qed.




Lemma refreshTransactions_mirrored (w : World R) :
  mirrored w → mirrored (run supabase refreshTransactions w).1.
Proof.
  intros Hm. unfold refreshTransactions.
  rewrite !run_set, run_try_finally, run_try_catch.
  cbn -[await]. destruct (onLine w); cbn -[await]; [|done].
  rewrite run_await. unfold call. cbn [set_tx remote].
  destruct (supabase _ _ (remote w)) as [r' [[rows|err]|e]]; cbn; try done.
  unfold mirrored. cbn. by rewrite lookup_insert_eq.
Qed.

Lemma syncAction_mirrored (a : Action) (l : list obj) (w : World R) :
  mirrored w → mirrored (run supabase (syncAction l a) w).1.
Proof.
  intros Hm. unfold syncAction.
  destruct (a_type a =? "add")%string;
    [destruct (a_data a) as [d|]; [|done]|
     destruct (a_type a =? "update")%string;
       [|destruct (a_type a =? "delete")%string; [|done]]];
    rewrite run_await; unfold call;
    destruct (supabase _ _ (remote w)) as [r' [[x|e']|e']]; try done.
  unfold mirrored. cbn. by rewrite lookup_insert_eq.
Qed.

Lemma loop_mirrored (q : list Action) (l : list obj) (w : World R) :
  mirrored w → mirrored (run supabase (for_of q syncAction l) w).1.
Proof.
  revert l w. induction q as [|a q IH]; intros l w Hm; [done|].
  cbn [for_of]. rewrite run_bind.
  pose proof (syncAction_mirrored a l w Hm) as Hstep.
  destruct (run supabase (syncAction l a) w) as [w1 [l1|e]]; [|done].
  by apply IH.
Qed.

Lemma syncQueue_mirrored (w : World R) :
  mirrored w → mirrored (run supabase syncQueue w).1.
Proof.
  intros Hm. rewrite run_syncQueue.
  pose proof (loop_mirrored (default [] (sync_queue w))
                (default [] (storage w !! "transactions"))
                (set_tx (setIsSyncing true) w) Hm) as Hloop.
  change (run supabase
            (for_of (default [] (sync_queue w)) syncAction
               (default [] (storage w !! "transactions")))
            (set_tx (setIsSyncing true) w))
    with (run supabase drainQueue (set_tx (setIsSyncing true) w)) in Hloop.
  destruct (run supabase drainQueue _) as [w1 [l|e]]; cbn [fst] in *; [|done].
  apply (refreshTransactions_mirrored (set_sync_queue (Some []) w1)), Hloop.
Qed.

Lemma write_mirrored (wr : write) (w : World R) :
  mirrored w → mirrored (run supabase (issue wr) w).1.
Proof.
  unfold mirrored. intros Hm.
  destruct wr as [d|id|id u|f o n]; unfold issue; [| |rewrite run_bind|];
    unfold addTransaction, removeTransaction, updateTransaction,
      bulkRenameInTransactions;
    rewrite !run_set, run_try_finally, run_try_catch;
    cbn -[await]; (destruct (onLine w); cbn -[await];
    [rewrite run_await; unfold call; cbn [set_tx remote];
     destruct (supabase _ _ (remote w)) as [r' [[x|e']|e']]; cbn;
     rewrite ?lookup_insert_eq; cbn; by rewrite ?Hm
    |rewrite ?lookup_insert_eq; done]).
Qed.

(** X4.  The transactions in memory and the persisted ones stay the same
    list: if they agree before an operation of the store (a refresh, a
    drain, or any of the four writes, online or offline), they agree after
    it, whether the remote store accepted, refused or was unreachable. *)
Theorem operations_keep_mirror (o : operation) (w : World R) :
  mirrored w → mirrored (run supabase (operate o) w).1.
Proof.
  destruct o as [| |wr]; cbn [operate].
  - apply refreshTransactions_mirrored.
  - apply syncQueue_mirrored.
  - apply write_mirrored.
Qed.

End TransactionStore.

Lemma operations_keep_mirror_witness :
  mirrored (run server (operate Sync) three_writes_offline).1.
Proof.
  apply (operations_keep_mirror server Sync three_writes_offline).
  reflexivity.
Defined.

(** ** Writes and reads of the transaction store *)

Section Writes.
Context {R : Type} (supabase : ∀ X, rcall X → R → R * outcome X).
Import TransactionProvider.

(** X5.  A write looks at [navigator.onLine] once and goes one way only.
    Online it sends its one remote call and never touches the queue;
    offline it returns normally, puts its one entry at the end of the queue
    and calls nothing remote.  In both cases [isLoading] is lowered at the
    end. *)
Theorem write_is_routed_by_connectivity (wr : write) (w : World R) :
  tx_isLoading (tx (run supabase (issue wr) w).1) = false ∧
  if onLine w then
    sync_queue (run supabase (issue wr) w).1 = sync_queue w ∧
    request_of <$> trace (run supabase (issue wr) w).1
      = (request_of <$> trace w) ++ [remote_call_of wr]
  else
    (run supabase (issue wr) w).2 = Done () ∧
    sync_queue (run supabase (issue wr) w).1
      = Some (default [] (sync_queue w) ++ [entry_of (clock w) wr]) ∧
    trace (run supabase (issue wr) w).1 = trace w ∧
    remote (run supabase (issue wr) w).1 = remote w.
Proof.
  destruct wr as [d|id|id u|f o n]; unfold issue; [| |rewrite run_bind|];
    unfold addTransaction, removeTransaction, updateTransaction,
      bulkRenameInTransactions;
    rewrite !run_set, run_try_finally, run_try_catch;
    cbn -[await]; (destruct (onLine w); cbn -[await];
    [rewrite run_await; unfold call; cbn [set_tx remote];
     destruct (supabase _ _ (remote w)) as [r' [[x|e']|e']]; cbn;
     by rewrite fmap_app
    |done]).
Qed.






Lemma rename_no_old (field oldValue newValue : string) (t : obj) :
  oldValue ≠ newValue →
  get field (rename field oldValue newValue t) ≠ VStr oldValue.
Proof.
  intros Hne. unfold rename, strict_eq.
  destruct (decide (get field t = VStr oldValue)) as [Ht|Ht].
  - rewrite (bool_decide_eq_true_2 _ Ht). unfold get.
    rewrite lookup_insert_eq. cbn. congruence.
  - by rewrite (bool_decide_eq_false_2 _ Ht).
Qed.

Lemma rename_other_field (field oldValue newValue k : string) (t : obj) :
  k ≠ field →
  get k (rename field oldValue newValue t) = get k t.
Proof.
  intros Hk. unfold rename. destruct (strict_eq _ _); [|done].
  unfold get. by rewrite lookup_insert_ne.
Qed.

(** X8.  A rename made offline to a different value leaves no persisted
    transaction with the old value in that field, keeps their number, and
    changes no other field of any of them; it queues one ['bulkRename']
    entry. *)
Theorem offline_rename_replaces_every_old_value (field oldValue newValue : string)
    (w : World R) :
  onLine w = false →
  oldValue ≠ newValue →
  ∃ l', storage (run supabase
                   (bulkRenameInTransactions field oldValue newValue) w).1
          !! "transactions" = Some l' ∧
    Forall (λ t, get field t ≠ VStr oldValue) l' ∧
    length l' = length (default [] (storage w !! "transactions")) ∧
    (∀ k, k ≠ field →
          get k <$> l' = get k <$> default [] (storage w !! "transactions")) ∧
    sync_queue (run supabase
                  (bulkRenameInTransactions field oldValue newValue) w).1
      = Some (default [] (sync_queue w)
              ++ [bulkRename_action field oldValue newValue]).
Proof.
  intros Hoff Hne. unfold bulkRenameInTransactions.
  rewrite !run_set, run_try_finally, run_try_catch.
  cbn. rewrite Hoff. cbn. rewrite lookup_insert_eq.
  eexists. split; [reflexivity|]. split_and!.
  - apply Forall_fmap, Forall_forall. intros t _. by apply rename_no_old.
  - by rewrite length_fmap.
  - intros k Hk. rewrite <- list_fmap_compose. apply list_fmap_ext.
    intros i t _. by apply rename_other_field.
  - done.
Qed.

Lemma tempId_inj (m n : N) : tempId m = tempId n → m = n.
Proof.
  unfold tempId. intros Heq. apply (inj pretty).
  by apply (inj (String.app "offline-")).
Qed.

Lemma run_offline_add (d : obj) (w : World R) :
  onLine w = false →
  run supabase (addTransaction d) w =
    (let newTx := <["id" := VStr (tempId (clock w))]> d in
     let localTx := default [] (storage w !! "transactions") in
     set_tx (setIsLoading false)
       (set_tx (setTransactions (λ _, newTx :: localTx))
          (set_sync_queue (Some (default [] (sync_queue w) ++ [add_action newTx]))
             (set_storage <["transactions" := newTx :: localTx]>
                (set_tx (setError None) (set_tx (setIsLoading true) w))))),
     Done ()).
Proof.
  intros Hoff. unfold addTransaction.
  rewrite !run_set, run_try_finally, run_try_catch.
  cbn. rewrite Hoff. reflexivity.
Qed.

Lemma run_offline_remove (id : string) (w : World R) :
  onLine w = false →
  run supabase (removeTransaction id) w =
    (let localTx :=
       filter (λ t, get "id" t ≠ VStr id)
         (default [] (storage w !! "transactions")) in
     set_tx (setIsLoading false)
       (set_tx (setTransactions (λ _, localTx))
          (set_sync_queue
             (Some (default [] (sync_queue w) ++ [delete_action (VStr id)]))
             (set_storage <["transactions" := localTx]>
                (set_tx (setError None) (set_tx (setIsLoading true) w))))),
     Done ()).
Proof.
  intros Hoff. unfold removeTransaction.
  rewrite !run_set, run_try_finally, run_try_catch.
  cbn. rewrite Hoff. reflexivity.
Qed.

Lemma get_id_insert (id : val) (d : obj) : get "id" (<["id" := id]> d) = id.
Proof. unfold get. by rewrite lookup_insert_eq. Qed.

(** X9.  The temporary identifier of an offline add is made of the reading
    of the clock alone.  Two adds made at different readings get different
    identifiers; two adds made at the same reading get the same one, and
    then one offline remove of that identifier takes both entities out of
    the local store. *)
Theorem temporary_id_is_the_clock_reading (d1 d2 : obj) (w : World R) :
  onLine w = false →
  (∀ m n, tempId m = tempId n → m = n) ∧
  get "id" <$> take 2
      (default [] (storage (run supabase (addTransaction d2)
                              (run supabase (addTransaction d1) w).1).1
                     !! "transactions"))
    = [VStr (tempId (clock w)); VStr (tempId (clock w))] ∧
  storage (run supabase (removeTransaction (tempId (clock w)))
             (run supabase (addTransaction d2)
                (run supabase (addTransaction d1) w).1).1).1
    !! "transactions"
    = Some (filter (λ t, get "id" t ≠ VStr (tempId (clock w)))
              (default [] (storage w !! "transactions"))).
Proof.
  intros Hoff. split; [apply tempId_inj|].
  rewrite (run_offline_add d1 w Hoff). cbn [fst].
  rewrite run_offline_add by exact Hoff. cbn [fst].
  rewrite run_offline_remove by exact Hoff.
  cbn [fst storage set_tx set_storage set_sync_queue clock].
  rewrite !lookup_insert_eq. cbn [from_option id take fmap list_fmap].
  rewrite !get_id_insert. split; [done|].
  by rewrite !filter_cons_False
    by (rewrite get_id_insert; intros Hne; by apply Hne).
Qed.

End Writes.



Lemma offline_rename_replaces_every_old_value_witness :
  ∃ l', storage (run server
                   (TransactionProvider.bulkRenameInTransactions
                      "category" "Housing" "Home") offline_after_load).1
          !! "transactions" = Some l' ∧
    Forall (λ t, get "category" t ≠ VStr "Housing") l' ∧
    length l'
      = length (default [] (storage offline_after_load !! "transactions")) ∧
    (∀ k, k ≠ "category" →
          get k <$> l'
          = get k <$> default [] (storage offline_after_load !! "transactions")) ∧
    sync_queue (run server
                  (TransactionProvider.bulkRenameInTransactions
                     "category" "Housing" "Home") offline_after_load).1
      = Some (default [] (sync_queue offline_after_load)
              ++ [bulkRename_action "category" "Housing" "Home"]).
Proof.
  apply (offline_rename_replaces_every_old_value server
           "category" "Housing" "Home" offline_after_load).
  - reflexivity.
  - discriminate.
Defined.

Lemma temporary_id_is_the_clock_reading_witness :
  (∀ m n, TransactionProvider.tempId m = TransactionProvider.tempId n → m = n) ∧
  get "id" <$> take 2
      (default []
         (storage (run server (TransactionProvider.addTransaction groceries)
                     (run server (TransactionProvider.addTransaction lunch)
                        offline_after_load).1).1 !! "transactions"))
    = [VStr (TransactionProvider.tempId (clock offline_after_load));
       VStr (TransactionProvider.tempId (clock offline_after_load))] ∧
  storage (run server
             (TransactionProvider.removeTransaction
                (TransactionProvider.tempId (clock offline_after_load)))
             (run server (TransactionProvider.addTransaction groceries)
                (run server (TransactionProvider.addTransaction lunch)
                   offline_after_load).1).1).1 !! "transactions"
    = Some (filter (λ t, get "id" t
                         ≠ VStr (TransactionProvider.tempId
                                   (clock offline_after_load)))
              (default [] (storage offline_after_load !! "transactions"))).
Proof.
  apply (temporary_id_is_the_clock_reading server lunch groceries
           offline_after_load).
  reflexivity.
Defined.

(** ** The category / payment-method store as a whole *)

Section DataStoreFurther.
Context {R : Type} (supabase : ∀ X, rcall X → R → R * outcome X).
Import DataProvider.

Lemma refreshData_returns (w : World R) :
  (run supabase refreshData w).2 = Done () ∧
  sync_queue (run supabase refreshData w).1 = sync_queue w.
Proof.
  unfold refreshData. rewrite !run_data_set, run_try_finally, run_try_catch.
  cbn -[await]. destruct (onLine w); cbn -[await]; [|done].
  rewrite run_await. unfold call. cbn [set_dt remote].
  destruct (supabase _ _ (remote w)) as [r1 [[cats|err]|e]]; cbn -[await];
    try done.
  rewrite run_await. unfold call. cbn [remote].
  by destruct (supabase _ _ r1) as [r2 [[pms|err]|e]].
Qed.

Lemma syncEntity_frame (table key : string) (local : list obj) (a : Action)
    (w : World R) :
  sync_queue (run supabase (syncEntity table key local a) w).1 = sync_queue w.
Proof.
  unfold syncEntity.
  destruct (a_type a =? "add")%string;
    [destruct (a_data a) as [d|]; [|done]|
     destruct (a_type a =? "delete")%string; [|done]];
    rewrite run_await; unfold call;
    destruct (supabase _ _ (remote w)) as [r' [[x|e']|e']]; done.
Qed.

Lemma data_syncAction_frame (locals : list obj * list obj) (a : Action)
    (w : World R) :
  sync_queue (run supabase (syncAction locals a) w).1 = sync_queue w.
Proof.
  destruct locals as [cats pms]. unfold syncAction.
  destruct (bool_decide (a_entity a = Some "category")).
  - rewrite run_bind.
    pose proof (syncEntity_frame "categories" "categories" cats a w) as Hf.
    by destruct (run supabase (syncEntity _ _ cats a) w) as [w1 [l|e]].
  - destruct (bool_decide (a_entity a = Some "payment_method")); [|done].
    rewrite run_bind.
    pose proof (syncEntity_frame "payment_methods" "payment_methods" pms a w)
      as Hf.
    by destruct (run supabase (syncEntity _ _ pms a) w) as [w1 [l|e]].
Qed.

Lemma data_loop_frame (q : list Action) (locals : list obj * list obj)
    (w : World R) :
  sync_queue (run supabase (for_of q syncAction locals) w).1 = sync_queue w.
Proof.
  revert locals w. induction q as [|a q IH]; intros locals w; [done|].
  cbn [for_of]. rewrite run_bind.
  pose proof (data_syncAction_frame locals a w) as Hf.
  destruct (run supabase (syncAction locals a) w) as [w1 [l1|e]]; [|done].
  by rewrite IH.
Qed.

Lemma run_data_drainQueue (w : World R) :
  run supabase drainQueue w =
    run supabase
      (for_of (default [] (sync_queue w)) syncAction
         (default [] (storage w !! "categories"),
          default [] (storage w !! "payment_methods"))) w.
Proof. reflexivity. Qed.

Lemma run_data_syncQueue (w : World R) :
  run supabase syncQueue w =
    match run supabase drainQueue (set_dt (setIsSyncing true) w) with
    | (w1, Done _) =>
        (set_dt (setIsSyncing false)
           (run supabase refreshData (set_sync_queue (Some []) w1)).1,
         Done ())
    | (w1, Thrown _) => (set_dt (setIsSyncing false) w1, Done ())
    end.
Proof.
  unfold syncQueue.
  rewrite run_data_set, run_try_finally, run_try_catch, run_bind.
  destruct (run supabase drainQueue _) as [w1 [l|e]]; [|done].
  change (clearQueue;; refreshData)
    with (Do (LfSetQueue []) (λ _, refreshData)).
  cbn [run exec].
  pose proof (refreshData_returns (set_sync_queue (Some []) w1)) as [Hr _].
  destruct (run supabase refreshData _) as [w2 r]. simpl in Hr. by subst r.
Qed.

Lemma data_drainQueue_frame (w : World R) :
  sync_queue (run supabase drainQueue w).1 = sync_queue w.
Proof. rewrite run_data_drainQueue. apply data_loop_frame. Qed.

Lemma data_returned_drain_clears_queue (w w1 : World R)
    (l : list obj * list obj) :
  run supabase drainQueue (set_dt (setIsSyncing true) w) = (w1, Done l) →
  sync_queue (run supabase syncQueue w).1 = Some [].
Proof.
  intros Hdrain. rewrite run_data_syncQueue, Hdrain.
  change (sync_queue (run supabase refreshData
                        (set_sync_queue (Some []) w1)).1 = Some []).
  by rewrite (proj2 (refreshData_returns _)).
Qed.

(** X10.  The drain of the category / payment-method store never throws to
    its caller and always lowers its [isSyncing]; the queue is exactly as
    it was when the drain threw, and empty otherwise. *)
Theorem data_syncQueue_all_or_nothing (w : World R) :
  (run supabase syncQueue w).2 = Done () ∧
  dt_isSyncing (dt (run supabase syncQueue w).1) = false ∧
  sync_queue (run supabase syncQueue w).1 =
    match (run supabase drainQueue (set_dt (setIsSyncing true) w)).2 with
    | Done _ => Some []
    | Thrown _ => sync_queue w
    end.
Proof.
  pose proof (data_drainQueue_frame (set_dt (setIsSyncing true) w)) as Hq.
  pose proof (data_returned_drain_clears_queue w) as Hclear.
  rewrite run_data_syncQueue in *.
  destruct (run supabase drainQueue _) as [w1 [l|e]]; cbn [fst snd] in *.
  - split; [done|]. split; [done|]. by apply (Hclear w1 l).
  - done.
Qed.

Lemma untagged_skipped (locals : list obj * list obj) (a : Action) :
  untagged a → syncAction locals a = Ret locals.
Proof.
  intros [Hc Hp]. destruct locals as [cats pms]. unfold syncAction.
  by rewrite (bool_decide_eq_false_2 _ Hc), (bool_decide_eq_false_2 _ Hp).
Qed.

(** X11.  The drain of the category / payment-method store reads the same
    queue as the transaction store but only replays the entries tagged
    ['category'] or ['payment_method'].  On a queue of entries without such
    a tag (those of the transaction store carry none) its loop sends
    nothing and changes nothing, and [syncQueue] then empties the queue all
    the same. *)
Theorem untagged_entries_are_discarded (w : World R) :
  Forall untagged (default [] (sync_queue w)) →
  run supabase drainQueue w
    = (w, Done (default [] (storage w !! "categories"),
                default [] (storage w !! "payment_methods"))) ∧
  sync_queue (run supabase syncQueue w).1 = Some [].
Proof.
  intros Hq.
  assert (∀ (q : list Action) locals (w0 : World R),
            Forall untagged q →
            run supabase (for_of q syncAction locals) w0 = (w0, Done locals))
    as Hloop.
  { induction q as [|a q IH]; intros locals w0 Hall; [done|].
    apply Forall_cons in Hall as [Ha Hall].
    cbn [for_of]. rewrite (untagged_skipped locals a Ha). by apply IH. }
  split.
  - rewrite run_data_drainQueue. by apply Hloop.
  - apply (data_returned_drain_clears_queue w (set_dt (setIsSyncing true) w)
             (default [] (storage w !! "categories"),
              default [] (storage w !! "payment_methods"))).
    rewrite run_data_drainQueue. by apply Hloop.
Qed.

End DataStoreFurther.

Lemma untagged_entries_are_discarded_witness :
  run server DataProvider.drainQueue three_writes_offline
    = (three_writes_offline,
       Done (default [] (storage three_writes_offline !! "categories"),
             default [] (storage three_writes_offline !! "payment_methods"))) ∧
  sync_queue (run server DataProvider.syncQueue three_writes_offline).1
    = Some [].
Proof.
  apply (untagged_entries_are_discarded server three_writes_offline).
  vm_compute. repeat constructor; discriminate.
Defined.

Section DataStoreReads.
Context {R : Type} (supabase : ∀ X, rcall X → R → R * outcome X).
Import DataProvider.

(** X12.  An online [refreshData] takes both selects or none.  Only when
    the select of the categories and then the select of the payment methods
    both return rows are the three lists of names and the two cached
    collections replaced (and the store marked online); when either fails,
    lists and cache are as before, the message is in [error] and the store
    is marked offline.  In no case does it throw. *)
Theorem refreshData_takes_both_or_none (w : World R) :
  onLine w = true →
  (run supabase refreshData w).2 = Done () ∧
  dt_isLoading (dt (run supabase refreshData w).1) = false ∧
  match supabase _ (SelectOrder "categories" "order" true) (remote w) with
  | (r1, Returns (Data cats)) =>
      match supabase _ (SelectOrder "payment_methods" "order" true) r1 with
      | (_, Returns (Data pms)) =>
          (∀ k, names_in k (dt (run supabase refreshData w).1)
                = cached_names k (storage (run supabase refreshData w).1)) ∧
          storage (run supabase refreshData w).1
            = <["payment_methods" := pms]> (<["categories" := cats]> (storage w)) ∧
          dt_isOffline (dt (run supabase refreshData w).1) = false ∧
          dt_error (dt (run supabase refreshData w).1) = None
      | (_, o) =>
          (∀ k, names_in k (dt (run supabase refreshData w).1)
                = names_in k (dt w)) ∧
          storage (run supabase refreshData w).1 = storage w ∧
          dt_isOffline (dt (run supabase refreshData w).1) = true ∧
          dt_error (dt (run supabase refreshData w).1)
            = (λ e, error_message e "Failed to load data") <$> failure o
      end
  | (_, o) =>
      (∀ k, names_in k (dt (run supabase refreshData w).1)
            = names_in k (dt w)) ∧
      storage (run supabase refreshData w).1 = storage w ∧
      dt_isOffline (dt (run supabase refreshData w).1) = true ∧
      dt_error (dt (run supabase refreshData w).1)
        = (λ e, error_message e "Failed to load data") <$> failure o
  end.
Proof.
  intros Hon. unfold refreshData.
  rewrite !run_data_set, run_try_finally, run_try_catch.
  cbn -[await]. rewrite Hon. cbn -[await]. rewrite run_await. unfold call.
  cbn [set_dt remote].
  destruct (supabase _ _ (remote w)) as [r1 [[cats|err]|e]]; cbn -[await];
    try (split_and!; [done|done|by intros []|done..]).
  rewrite run_await. unfold call. cbn [remote].
  destruct (supabase _ _ r1) as [r2 [[pms|err]|e]]; cbn;
    try (split_and!; [done|done|by intros []|done..]).
  split_and!; try done.
  intros []; cbn; by rewrite ?lookup_insert_eq,
    ?(lookup_insert_ne _ "payment_methods" "categories"), ?lookup_insert_eq.
Qed.

End DataStoreReads.

Lemma refreshData_takes_both_or_none_witness :
  (run (refusing refused) DataProvider.refreshData (mount true 100 ())).2
    = Done () ∧
  dt_error (dt (run (refusing refused) DataProvider.refreshData
                  (mount true 100 ())).1)
    = Some "Failed to load data".
Proof.
  pose proof (refreshData_takes_both_or_none (refusing refused)
                (mount true 100 ()) eq_refl) as (Hret & _ & Hrest).
  split; [exact Hret|]. cbn in Hrest. apply Hrest.
Defined.

Section DataStoreOffline.
Context {R : Type} (supabase : ∀ X, rcall X → R → R * outcome X).
Context (trim : string → string).
Import DataProvider.

Lemma refreshData_offline (w : World R) :
  onLine w = false →
  (∀ k, names_in k (dt (run supabase refreshData w).1)
        = cached_names k (storage w)) ∧
  storage (run supabase refreshData w).1 = storage w ∧
  trace (run supabase refreshData w).1 = trace w.
Proof.
  intros Hoff. unfold refreshData.
  rewrite !run_data_set, run_try_finally, run_try_catch.
  cbn. rewrite Hoff. cbn. split; [by intros []|done].
Qed.

Lemma names_of_type_snoc (type type' : string) (l : list obj) (c : obj) :
  get "type" c = VStr type' →
  names_of_type type (l ++ [c]) =
    names_of_type type l ++ (if decide (type' = type) then [get "name" c] else []).
Proof.
  intros Hc. unfold names_of_type. rewrite filter_app, fmap_app. f_equal.
  destruct (decide (type' = type)) as [->|Hne].
  - by rewrite filter_cons_True.
  - rewrite filter_cons_False; [done|]. rewrite Hc. congruence.
Qed.

(** X13.  A name added offline survives a reload of the store without
    network: after [addExpenseCategory], [addIncomeCategory] or
    [addPaymentMethod] has accepted the name, an offline [refreshData]
    shows in that list the cached names followed by the new one, and in the
    other two lists the cached names only. *)
Theorem offline_added_name_survives_reload (k : name_list) (name : string)
    (w : World R) :
  onLine w = false →
  trim name ≠ "" →
  VStr name ∉ names_in k (dt w) →
  ∀ k', names_in k' (dt (run supabase refreshData
                           (run supabase (add_name trim k name) w).1).1)
        = cached_names k' (storage w)
            ++ (if decide (k' = k) then [VStr name] else []).
Proof.
  intros Hoff Hblank Hnew k'.
  assert ((trim name =? "")%string || bool_decide (VStr name ∈ names_in k (dt w))
          = false) as Hcond.
  { apply orb_false_intro; [by apply String.eqb_neq|].
    by apply bool_decide_eq_false_2. }
  assert (onLine (run supabase (add_name trim k name) w).1 = false ∧
          storage (run supabase (add_name trim k name) w).1 =
            match k with
            | ExpenseCategories =>
                <["categories" :=
                    default [] (storage w !! "categories") ++
                    [{[ "id" := VStr ("offline-cat-" +:+ pretty (clock w));
                        "name" := VStr name; "type" := VStr "expense" ]}]]>
                  (storage w)
            | IncomeCategories =>
                <["categories" :=
                    default [] (storage w !! "categories") ++
                    [{[ "id" := VStr ("offline-cat-" +:+ pretty (clock w));
                        "name" := VStr name; "type" := VStr "income" ]}]]>
                  (storage w)
            | PaymentMethods =>
                <["payment_methods" :=
                    default [] (storage w !! "payment_methods") ++
                    [{[ "id" := VStr ("offline-pay-" +:+ pretty (clock w));
                        "name" := VStr name ]}]]>
                  (storage w)
            end) as [Hoff' Hst].
  { destruct k; simpl in Hcond;
      unfold add_name, addExpenseCategory, addIncomeCategory, addCategory,
        addPaymentMethod;
      rewrite run_read, Hcond, !run_data_set, run_try_finally, run_try_catch;
      cbn; rewrite Hoff; cbn; done. }
  destruct (refreshData_offline _ Hoff') as (Hnames & _).
  rewrite Hnames, Hst.
  destruct k, k'; cbn [cached_names];
    rewrite ?lookup_insert_eq,
      ?(lookup_insert_ne _ "categories" "payment_methods"),
      ?(lookup_insert_ne _ "payment_methods" "categories") by done;
    cbn [from_option id];
    rewrite ?(names_of_type_snoc _ "expense"), ?(names_of_type_snoc _ "income"),
      ?fmap_app by done;
    try done.
  all: rewrite decide_False by done; by rewrite app_nil_r.
Qed.

(** X14.  An offline remove of a name for which the cache holds no entity
    changes nothing durable: it takes the name out of the list in memory
    and returns, but the cache and the queue are as before and nothing is
    sent; when the cache holds one, the cached entities carrying its [id]
    are removed and one ['delete'] entry tagged with the entity kind and
    that [id] is queued. *)
Theorem offline_remove_follows_the_cache (k : name_list) (name : string)
    (w : World R) :
  onLine w = false →
  (run supabase (issue_name trim (RemoveName k name)) w).2 = Done () ∧
  names_in k (dt (run supabase (issue_name trim (RemoveName k name)) w).1)
    = filter (λ c, c ≠ VStr name) (names_in k (dt w)) ∧
  trace (run supabase (issue_name trim (RemoveName k name)) w).1 = trace w ∧
  match cached_entity k name (storage w) with
  | None =>
      storage (run supabase (issue_name trim (RemoveName k name)) w).1 = storage w ∧
      sync_queue (run supabase (issue_name trim (RemoveName k name)) w).1
        = sync_queue w
  | Some found =>
      let key := match k with
                 | PaymentMethods => "payment_methods" | _ => "categories"
                 end in
      let tag := match k with
                 | PaymentMethods => "payment_method" | _ => "category"
                 end in
      storage (run supabase (issue_name trim (RemoveName k name)) w).1
        = <[key := filter (λ c, get "id" c ≠ get "id" found)
                     (default [] (storage w !! key))]> (storage w) ∧
      sync_queue (run supabase (issue_name trim (RemoveName k name)) w).1
        = Some (default [] (sync_queue w)
                ++ [entity_delete_action tag (get "id" found)])
  end.
Proof.
  intros Hoff.
  destruct k; unfold issue_name, removeExpenseCategory, removeIncomeCategory,
      removeCategory, removePaymentMethod, cached_entity;
    rewrite !run_data_set, run_try_finally, run_try_catch;
    cbn; rewrite Hoff; cbn;
    match goal with
    | |- context [List.find ?f ?l] => destruct (List.find f l) as [found|]
    end; cbn; done.
Qed.

End DataStoreOffline.

Lemma offline_added_name_survives_reload_witness :
  names_in ExpenseCategories
    (dt (run server DataProvider.refreshData
           (run server (add_name trim_utf8 ExpenseCategories "Pets")
              (mount false 100 empty_tables)).1).1)
    = cached_names ExpenseCategories (storage (mount false 100 empty_tables))
        ++ [VStr "Pets"].
Proof.
  apply (offline_added_name_survives_reload server trim_utf8
           ExpenseCategories "Pets"
           (mount false 100 empty_tables) eq_refl ltac:(discriminate)
           (not_elem_of_nil _) ExpenseCategories).
Defined.

Lemma offline_remove_follows_the_cache_witness :
  (run server (issue_name trim_utf8 (RemoveName ExpenseCategories "Pets"))
     (mount false 100 empty_tables)).2 = Done () ∧
  sync_queue (run server (issue_name trim_utf8 (RemoveName ExpenseCategories "Pets"))
                (mount false 100 empty_tables)).1 = None.
Proof.
  pose proof (offline_remove_follows_the_cache server trim_utf8
                ExpenseCategories "Pets"
                (mount false 100 empty_tables) eq_refl)
    as (Hret & _ & _ & Hcache).
  split; [exact Hret|]. cbn in Hcache. apply Hcache.
Defined.

(** ** Reordering *)

Section Reordering.
Context {R : Type} (supabase : ∀ X, rcall X → R → R * outcome X).
Import DataProvider.

(** A run only adds to the log of calls. *)
Lemma run_extends_trace {A} (p : Prog A) (w : World R) :
  ∃ rest, request_of <$> trace (run supabase p w).1
          = (request_of <$> trace w) ++ rest.
Proof.
  revert w. induction p as [a|e|X o k IH]; intros w;
    [exists []; by rewrite app_nil_r..|].
  cbn [run]. destruct o as [key|key v|key v| |q| | |f|f| |Y c]; cbn [exec];
    try match goal with
        | |- context [run supabase (k ?x) ?w0] =>
            destruct (IH x w0) as [rest Hrest]; exists rest; exact Hrest
        end.
  unfold call. destruct (supabase _ c (remote w)) as [r' o].
  destruct (IH o {| storage := storage w; sync_queue := sync_queue w;
                    onLine := onLine w; clock := clock w; tx := tx w;
                    dt := dt w; remote := r';
                    trace := trace w ++ [Ev c o] |}) as [rest Hrest].
  exists (Request c :: rest). rewrite Hrest. cbn [trace].
  by rewrite fmap_app, <- app_assoc.
Qed.

Lemma run_setOrder (table : string) (i : nat) (filters : list (string * val))
    (w : World R) :
  run supabase (setOrder table i filters) w =
    match call supabase
            (Update table (Some {[ "order" := VNum (Z.of_nat i) ]}) filters) w
    with
    | (w', Returns _) => (w', Done ())
    | (w', Throws e) => (w', Thrown e)
    end.
Proof.
  unfold setOrder. rewrite run_await.
  by destruct (call supabase _ w) as [w' [r|e]].
Qed.

Lemma order_loop (table : string) (flt : string → list (string * val))
    (ps : list (nat * string)) (w : World R) :
  run supabase (for_of ps (λ _ '(i, name), setOrder table i (flt name)) ()) w
    = match send supabase
              ((λ '(i, name),
                  Request (Update table
                             (Some {[ "order" := VNum (Z.of_nat i) ]})
                             (flt name))) <$> ps) w
      with
      | (w', None) => (w', Done ())
      | (w', Some e) => (w', Thrown e)
      end.
Proof.
  revert w. induction ps as [|[i name] ps IH]; intros w; [done|].
  cbn [for_of fmap list_fmap send]. rewrite run_bind, run_setOrder.
  destruct (call supabase _ w) as [w' [rp|e]]; [apply IH|done].
Qed.

Lemma run_reorder (table : string) (flt : string → list (string * val))
    (names : list string) (w : World R) :
  run supabase
    (set (setIsLoading true);;
     try_finally
       (for_of (imap pair names)
          (λ _ '(i, name), setOrder table i (flt name)) ();;
        refreshData)
       (set (setIsLoading false))) w
  = match send supabase
            (imap (λ i name,
                     Request (Update table
                                (Some {[ "order" := VNum (Z.of_nat i) ]})
                                (flt name))) names)
            (set_dt (setIsLoading true) w)
    with
    | (w1, None) =>
        (set_dt (setIsLoading false) (run supabase refreshData w1).1, Done ())
    | (w1, Some e) => (set_dt (setIsLoading false) w1, Thrown e)
    end.
Proof.
  rewrite run_data_set, run_try_finally, run_bind, order_loop, fmap_imap.
  destruct (send supabase _ _) as [w1 [e|]]; [done|].
  pose proof (proj1 (refreshData_returns supabase w1)) as Hret.
  destruct (run supabase refreshData w1) as [w2 r]. cbn [fst snd] in *.
  by subst r.
Qed.

(** X15.  [updateCategoryOrder] and [updatePaymentMethodOrder] raise
    [isLoading] and send one update per name, in the order given, writing
    the positions 0, 1, 2, ...; they do not look at the replies, so that an
    update answered with an error does not stop the sequence and is
    reported nowhere.  When every update has been answered, [refreshData]
    runs and the function returns.  An update that is rejected ends the
    sequence there: no further update is sent, the refresh does not run and
    the exception reaches the caller.  [isLoading] is lowered in both
    cases. *)
Theorem order_is_written_in_sequence (type : string) (names : list string)
    (w : World R) :
  run supabase (updateCategoryOrder type names) w
    = match send supabase (imap (order_request type) names)
              (set_dt (setIsLoading true) w)
      with
      | (w1, None) =>
          (set_dt (setIsLoading false) (run supabase refreshData w1).1, Done ())
      | (w1, Some e) => (set_dt (setIsLoading false) w1, Thrown e)
      end ∧
  run supabase (updatePaymentMethodOrder names) w
    = match send supabase (imap payment_order_request names)
              (set_dt (setIsLoading true) w)
      with
      | (w1, None) =>
          (set_dt (setIsLoading false) (run supabase refreshData w1).1, Done ())
      | (w1, Some e) => (set_dt (setIsLoading false) w1, Thrown e)
      end.
Proof.
  split.
  - apply (run_reorder "categories"
             (λ name, [("name", VStr name); ("type", VStr type)])).
  - apply (run_reorder "payment_methods" (λ name, [("name", VStr name)])).
Qed.

(** What [send] puts in the log: the calls, in their order, up to and
    including the first that was rejected; all of them when none was. *)
Lemma send_trace (calls : list request) (w : World R) :
  ∃ n, (n ≤ length calls)%nat ∧
    request_of <$> trace (send supabase calls w).1
      = (request_of <$> trace w) ++ take n calls ∧
    storage (send supabase calls w).1 = storage w ∧
    dt (send supabase calls w).1 = dt w ∧
    sync_queue (send supabase calls w).1 = sync_queue w ∧
    match (send supabase calls w).2 with
    | None => n = length calls
    | Some _ => (0 < n)%nat
    end.
Proof.
  revert w. induction calls as [|[X c] calls IH]; intros w.
  - exists 0. cbn. by rewrite app_nil_r.
  - cbn [send]. unfold call.
    destruct (supabase X c (remote w)) as [r' [rp|e]].
    + match goal with
      | |- context [send supabase calls ?w0] =>
          destruct (IH w0) as (n & Hn & Hsent & Hst & Hdt & Hq & Hres)
      end.
      exists (S n). rewrite Hsent, Hst, Hdt, Hq. cbn [trace length take].
      rewrite fmap_app, <- app_assoc. split_and!; try done; [lia|].
      destruct (send supabase calls _).2; lia.
    + exists 1. cbn. rewrite fmap_app, take_0. split_and!; try done; lia.
Qed.

(** With a remote store that answers every call with an error, all the
    updates of a reordering are sent all the same, the refresh follows, and
    the caller sees a normal return. *)
Lemma refused_order_is_not_reported :
  run (refusing refused)
      (DataProvider.updateCategoryOrder "expense" ["Food"; "Pets"])
      (mount true 100 ())
    = ((run (refusing refused)
          (DataProvider.updateCategoryOrder "expense" ["Food"; "Pets"])
          (mount true 100 ())).1, Done ()) ∧
  request_of
    <$> trace (run (refusing refused)
                 (DataProvider.updateCategoryOrder "expense" ["Food"; "Pets"])
                 (mount true 100 ())).1
    = [ order_request "expense" 0 "Food"; order_request "expense" 1 "Pets";
        Request (SelectOrder "categories" "order" true) ].
Proof. vm_compute. done. Qed.

End Reordering.

(** ** The CSV export *)

Section Csv.
Import TransactionList.

Lemma string_app_cons (c : ascii) (s t : string) :
  String c s +:+ t = String c (s +:+ t).
Proof. reflexivity. Qed.

Lemma string_app_nil_l (t : string) : "" +:+ t = t.
Proof. reflexivity. Qed.

Lemma string_app_nil_r (s : string) : s +:+ "" = s.
Proof.
  induction s as [|c s IH]; [done|]. by rewrite string_app_cons, IH.
Qed.

Lemma string_app_assoc (a b c : string) : (a +:+ b) +:+ c = a +:+ (b +:+ c).
Proof.
  induction a as [|x a IH]; [done|]. by rewrite !string_app_cons, IH.
Qed.

Lemma read_value_double_quotes (v rest : string) :
  (∀ rest', rest ≠ String quote rest') →
  read_value (double_quotes v +:+ String quote rest) = Some (v, rest).
Proof.
  intros Hrest. induction v as [|c v IH].
  - cbn [double_quotes]. rewrite string_app_nil_l. cbn [read_value].
    rewrite Ascii.eqb_refl.
    destruct rest as [|c' rest']; [done|].
    destruct (Ascii.eqb c' quote) eqn:Hc; [|done].
    apply Ascii.eqb_eq in Hc as ->. by destruct (Hrest rest').
  - cbn [double_quotes]. destruct (Ascii.eqb c quote) eqn:Hc.
    + apply Ascii.eqb_eq in Hc as ->. rewrite !string_app_cons.
      cbn [read_value]. rewrite !Ascii.eqb_refl. by rewrite IH.
    + rewrite string_app_cons. cbn [read_value]. rewrite Hc. by rewrite IH.
Qed.

Lemma read_cell_cell (v rest : string) :
  (∀ rest', rest ≠ String quote rest') →
  read_cell (cell v +:+ rest) = Some (v, rest).
Proof.
  intros Hrest. unfold cell. rewrite string_app_cons. cbn [read_cell].
  rewrite Ascii.eqb_refl, string_app_assoc, string_app_cons, string_app_nil_l.
  by apply read_value_double_quotes.
Qed.

Lemma read_row_join (n : nat) (row : list string) (rest : string) :
  row ≠ [] →
  (length row ≤ n)%nat →
  (∀ rest', rest ≠ String quote rest' ∧ rest ≠ String comma rest') →
  read_row n (join comma (cell <$> row) +:+ rest) = Some (row, rest).
Proof.
  intros Hne Hn Hrest. revert n Hn.
  induction row as [|v row IH]; [done|]. intros [|n] Hn; [cbn in Hn; lia|].
  destruct row as [|v' row].
  - cbn [fmap list_fmap join read_row].
    rewrite read_cell_cell by (intros rest'; apply Hrest).
    destruct rest as [|c rest']; [done|].
    destruct (Ascii.eqb c comma) eqn:Hc; [|done].
    apply Ascii.eqb_eq in Hc as ->. by destruct (Hrest rest') as [_ []].
  - change (join comma (cell <$> v :: v' :: row))
      with (cell v +:+ String comma (join comma (cell <$> v' :: row))).
    rewrite string_app_assoc, string_app_cons. cbn [read_row].
    rewrite read_cell_cell by done.
    rewrite Ascii.eqb_refl, IH; [done|done|cbn in *; lia].
Qed.

Lemma read_rows_join (m n : nat) (rows : list (list string)) :
  rows ≠ [] →
  Forall (λ row, row ≠ [] ∧ (length row ≤ m)%nat) rows →
  (length rows ≤ n)%nat →
  read_rows m n (join newline ((λ row, join comma (cell <$> row)) <$> rows))
    = Some rows.
Proof.
  intros Hne Hrows. revert n.
  induction rows as [|row rows IH]; [done|]. intros [|n] Hn; [cbn in Hn; lia|].
  apply Forall_cons in Hrows as [[Hrow Hm] Hrows].
  destruct rows as [|row' rows].
  - cbn [fmap list_fmap join read_rows].
    pose proof (read_row_join m row EmptyString Hrow Hm) as Hread.
    rewrite string_app_nil_r in Hread. by rewrite Hread.
  - change (join newline
              ((λ row, join comma (cell <$> row)) <$> row :: row' :: rows))
      with (join comma (cell <$> row) +:+
            String newline
              (join newline
                 ((λ row, join comma (cell <$> row)) <$> row' :: rows))).
    cbn [read_rows]. rewrite read_row_join; [|done|done|by intros rest'].
    rewrite Ascii.eqb_refl, IH; [done|done|done|cbn in *; lia].
Qed.

(** X16.  What [downloadCSVCombined] writes can be read back: reading the
    content cell by cell (a quoted value ends at the first quote that is not
    doubled, cells are separated by commas, rows by line feeds) gives the
    header followed by one row of seven values per transaction, the
    expenses before the income, whatever characters (quotes, commas, line
    feeds) the values contain. *)
Theorem csv_reads_back (expenses income : list obj) :
  read_rows 7 (S (length (expenses ++ income))) (csvContent expenses income)
    = Some (header :: (row_of <$> (expenses ++ income))).
Proof.
  unfold csvContent, csvRows. apply read_rows_join.
  - done.
  - apply Forall_cons. split; [split; [done|cbn; lia]|].
    apply Forall_fmap, Forall_forall. intros t _. split; [done|cbn; lia].
  - cbn. by rewrite length_fmap.
Qed.

End Csv.

(** ** The filters of the list *)

Section ListFilters.
Import TransactionList.
Variable toLowerCase : string → string.
Variable includes : string → string → bool.

(** X17.  With the filters cleared the list shows all the transactions of
    its type, in their order, and cannot throw; a transaction of any other
    type is shown in neither list. *)
Theorem cleared_filters_show_the_type (type : string) (l : list obj) :
  filtered toLowerCase includes type cleared l
    = Done (filter (λ t, get "type" t = VStr type) l).
Proof.
  unfold filtered.
  induction (filter (λ t, get "type" t = VStr type) l) as [|t r IH]; [done|].
  cbn. by rewrite IH.
Qed.

Lemma keeps_sound (f : Filters) (t : obj) :
  keeps toLowerCase includes f t = Done true →
  (category f ≠ "all" → get "category" t = VStr (category f)) ∧
  (date f ≠ "" → get "date" t = VStr (date f)) ∧
  (paymentMethod f ≠ "all" → get "payment_method" t = VStr (paymentMethod f)).
Proof.
  unfold keeps, strict_eq.
  intros Hk.
  assert (((category f =? "all")%string
           || bool_decide (get "category" t = VStr (category f)))
          && ((date f =? "")%string
              || bool_decide (get "date" t = VStr (date f)))
          && ((paymentMethod f =? "all")%string
              || bool_decide (get "payment_method" t = VStr (paymentMethod f)))
          = true) as Hrest.
  { destruct (search f =? "")%string.
    - by injection Hk.
    - destruct (lower_includes _ _ "description" t _) as [[]|e]; [| |done].
      + by injection Hk.
      + destruct (lower_includes _ _ "category" t _) as [b|e]; [|done].
        injection Hk as Hk. by apply andb_true_iff in Hk as [_ Hk]. }
  apply andb_true_iff in Hrest as [[Hc Hd]%andb_true_iff Hp].
  split_and!; intros Hne.
  - apply orb_true_iff in Hc as [Hc|Hc]; [by apply String.eqb_eq in Hc|].
    by apply bool_decide_eq_true in Hc.
  - apply orb_true_iff in Hd as [Hd|Hd]; [by apply String.eqb_eq in Hd|].
    by apply bool_decide_eq_true in Hd.
  - apply orb_true_iff in Hp as [Hp|Hp]; [by apply String.eqb_eq in Hp|].
    by apply bool_decide_eq_true in Hp.
Qed.

Lemma filter_with_throws (p : obj → result bool) (l : list obj) (t : obj)
    (e : exn) :
  t ∈ l → p t = Thrown e → ∃ e', filter_with p l = Thrown e'.
Proof.
  intros Hin Hp. induction l as [|t' l IH]; [by apply elem_of_nil in Hin|].
  cbn [filter_with]. apply elem_of_cons in Hin as [<-|Hin].
  - rewrite Hp. by exists e.
  - destruct (p t') as [b|e1]; [|by exists e1].
    destruct (IH Hin) as [e' ->]. by exists e'.
Qed.

(** X18.  Filters only narrow the list.  When the filtering returns, what
    is shown is a sublist (same order, nothing added) of the transactions
    of the type, and every transaction shown agrees with each filter that
    is set: category, date and payment method. *)
Theorem filters_only_narrow (type : string) (f : Filters) (l r : list obj) :
  filtered toLowerCase includes type f l = Done r →
  r `sublist_of` filter (λ t, get "type" t = VStr type) l ∧
  Forall (λ t, get "type" t = VStr type ∧
               (category f ≠ "all" → get "category" t = VStr (category f)) ∧
               (date f ≠ "" → get "date" t = VStr (date f)) ∧
               (paymentMethod f ≠ "all" →
                get "payment_method" t = VStr (paymentMethod f))) r.
Proof.
  unfold filtered.
  assert (Forall (λ t, get "type" t = VStr type)
            (filter (λ t, get "type" t = VStr type) l)) as Htype.
  { apply Forall_forall. by intros t [? _]%list_elem_of_filter. }
  revert r Htype.
  induction (filter (λ t, get "type" t = VStr type) l) as [|t l' IH];
    intros r Htype.
  - intros [= <-]. split; constructor.
  - apply Forall_cons in Htype as [Ht Htype]. cbn [filter_with].
    destruct (keeps toLowerCase includes f t) as [b|e] eqn:Hk; [|done].
    destruct (filter_with (keeps toLowerCase includes f) l') as [r'|e]
      eqn:Hrest; [|done].
    intros [= <-]. destruct (IH r' Htype eq_refl) as [Hsub Hall].
    destruct b.
    + split; [by constructor|]. apply Forall_cons. split; [|done].
      split; [done|]. by apply keeps_sound.
    + split; [by constructor|done].
Qed.

Lemma filter_with_thrown (p : obj → result bool) (l : list obj) (e : exn) :
  filter_with p l = Thrown e → ∃ t, t ∈ l ∧ p t = Thrown e.
Proof.
  induction l as [|t l IH]; [done|]. cbn [filter_with].
  destruct (p t) as [b|e1] eqn:Hp.
  - destruct (filter_with p l) as [r|e2]; [done|]. intros [= <-].
    destruct (IH eq_refl) as (t' & Hin & Ht'). exists t'.
    split; [by apply elem_of_cons; right|done].
  - intros [= <-]. exists t. split; [by apply elem_of_cons; left|done].
Qed.

Lemma keeps_throws_Error (f : Filters) (t : obj) (e : exn) :
  keeps toLowerCase includes f t = Thrown e → instance_of_Error e = true.
Proof.
  unfold keeps, lower_includes. destruct (search f =? "")%string; [done|].
  destruct (get "description" t) as [| |s|n].
  3: { destruct (includes _ _); [done|].
       destruct (get "category" t); by intros [= <-]. }
  all: by intros [= <-].
Qed.

(** X19.  A search makes the list throw on a transaction without a
    description.  As soon as the search box is not empty, the callback calls
    [toLowerCase] on [t.description] of every transaction of the type; when
    one of them holds no string there (the field is optional: the export
    falls back to the empty string when it is missing), the filtering
    throws a [TypeError] instead of returning a list, whatever the other
    transactions and filters are. *)
Theorem search_throws_without_description (type : string) (f : Filters)
    (l : list obj) (t : obj) :
  search f ≠ "" →
  t ∈ l →
  get "type" t = VStr type →
  (∀ s, get "description" t ≠ VStr s) →
  ∃ e, filtered toLowerCase includes type f l = Thrown e ∧
       instance_of_Error e = true.
Proof.
  intros Hsearch Hin Htype Hdescr. unfold filtered.
  assert (∃ e, keeps toLowerCase includes f t = Thrown e) as [e Hk].
  { unfold keeps. destruct (search f =? "")%string eqn:Hs.
    - by apply String.eqb_eq in Hs.
    - unfold lower_includes.
      destruct (get "description" t) as [| |s|n] eqn:Hd; eauto.
      by destruct (Hdescr s). }
  assert (t ∈ filter (λ t, get "type" t = VStr type) l) as Hin'.
  { by apply list_elem_of_filter. }
  destruct (filter_with_throws _ _ _ _ Hin' Hk) as [e' He']. exists e'.
  split; [done|].
  apply filter_with_thrown in He' as (t' & _ & Ht').
  by apply keeps_throws_Error in Ht'.
Qed.

End ListFilters.

Lemma filters_only_narrow_witness :
  TransactionList.filteredExpenses ascii_toLowerCase substring_of
    roast_in_food [salary; coffee] = Done [coffee] ∧
  Forall (λ t, get "category" t = VStr "Food") [coffee].
Proof.
  assert (TransactionList.filtered ascii_toLowerCase substring_of "expense"
            roast_in_food [salary; coffee] = Done [coffee]) as Hrun.
  { vm_compute. reflexivity. }
  split; [exact Hrun|].
  destruct (filters_only_narrow ascii_toLowerCase substring_of "expense"
              roast_in_food [salary; coffee] [coffee] Hrun) as [_ Hall].
  eapply Forall_impl; [exact Hall|].
  intros t (_ & Hcat & _). apply Hcat. discriminate.
Defined.

Lemma search_throws_without_description_witness :
  ∃ e, TransactionList.filteredIncome ascii_toLowerCase substring_of
         search_sal [coffee; salary] = Thrown e ∧
       instance_of_Error e = true.
Proof.
  apply (search_throws_without_description ascii_toLowerCase substring_of
           "income" search_sal [coffee; salary] salary).
  - discriminate.
  - apply elem_of_cons; right. apply elem_of_cons; left. reflexivity.
  - vm_compute. reflexivity.
  - intros s. vm_compute. discriminate.
Defined.
